(** * chrome-bookmarks: the bookmark navigator and the favicon cache

    A shallow embedding of [src/lib/models.ts] and [src/scripts/bookmarks.ts].

    JavaScript values are modelled by the types the TypeScript declarations
    give them.  A position that can hold [undefined] at run time is an
    [option], with [None] for [undefined].  An exception ends the script, so
    a function that can throw returns a sum whose left side is the exception.
    The bookmark tree is never mutated by the script, hence an array of the
    tree is represented by its value (its elements, in order). *)

From Stdlib Require Import List Bool Arith Lia.
From stdpp Require Import base option list strings gmap.

Set Warnings "-register-all".

Local Open Scope string_scope.
Local Open Scope list_scope.

(** The character [U+0022], which delimits the argument of [open]. *)
Definition dquote : string := String (Ascii.ascii_of_nat 34) EmptyString.

(** ** src/lib/models.ts *)

Module Models.

Record MetaInfo : Type := mkMetaInfo
  { Description : option string;
    Thumbnail : option string;
    power_bookmark_meta : option string;
    Nickname : option string;
    ThemeColor : option string;
    Partner : option string;
    Bookmarkbar : option string }.

(** [interface Base]: the fields shared by folders and bookmarks. *)
Record Base : Type := mkBase
  { id : string;
    date_added : string;
    date_last_used : string;
    date_modified : option string;
    guid : string;
    meta_info : option MetaInfo;
    name : string }.

(** The tag field [type]: ["folder"] or ["url"]. *)
Inductive ItemType : Type := folder | url.

(** [Folder | Bookmark].  A folder owns its children and has no url; a
    bookmark has a url and no children. *)
Inductive Item : Type :=
| Folder (base : Base) (children : list Item)
| Bookmark (base : Base) (href : string).

Definition item_base (i : Item) : Base :=
  match i with Folder b _ => b | Bookmark b _ => b end.

Definition item_name (i : Item) : string := name (item_base i).

Definition item_type (i : Item) : ItemType :=
  match i with Folder _ _ => folder | Bookmark _ _ => url end.

(** [item.children]: [undefined] on a bookmark. *)
Definition item_children (i : Item) : option (list Item) :=
  match i with Folder _ c => Some c | Bookmark _ _ => None end.

(** [item.url]: [undefined] on a folder. *)
Definition item_url (i : Item) : option string :=
  match i with Folder _ _ => None | Bookmark _ u => Some u end.

End Models.

Import Models.

(** ** JavaScript arrays used as a stack *)

Section JsArray.
Context {A : Type}.

(** [a.push(x)]: the new element goes to the end. *)
Definition push (a : list A) (x : A) : list A := a ++ [x].

(** [a.pop()]: removes the last element and returns it; on an empty
    array it returns [undefined] and leaves the array empty. *)
Fixpoint pop (a : list A) : option A * list A :=
  match a with
  | [] => (None, [])
  | x :: rest =>
      match rest with
      | [] => (Some x, [])
      | _ :: _ => let (r, rest') := pop rest in (r, x :: rest')
      end
  end.

(** [a.find(p)]: the first element that satisfies [p], or [undefined]. *)
Fixpoint find (p : A -> bool) (a : list A) : option A :=
  match a with
  | [] => None
  | x :: rest => if p x then Some x else find p rest
  end.

End JsArray.

(** ** The favicon value held by the script

    [loadFavicons] returns either a plain object built by
    [Object.fromEntries] (or read from the cache), or, on the path
    "Continue without Favicons", a [Map] instance. *)

Inductive Favicons : Type :=
| FavObject (o : gmap string string)
| FavMap (entries : list (string * string)).

(** [favicons[key]]: a property read, for a key that is not the name of a
    property the value inherits from its prototypes (such as [size] on a
    [Map] or [constructor] on both): those reads are left out of the
    model.  On a plain object the read is the entry of the key; the
    entries of a [Map] instance are not properties. *)
Definition favicons_get (f : Favicons) (key : string) : option string :=
  match f with
  | FavObject o => o !! key
  | FavMap _ => None
  end.

(** ** src/scripts/bookmarks.ts: the navigator *)

Inductive OptionValue : Type :=
| go_back
| item (i : Item).

(** The fields of a Kit [Choice] that the script fills in. *)
Record Choice : Type := mkChoice
  { choice_name : string;
    choice_description : option string;
    choice_keyword : option string;
    choice_img : option string;
    choice_html : option string;
    choice_value : OptionValue }.

(** The two module-level variables [bookmarks] and [historyStack]. *)
Record NavState : Type := mkNav
  { bookmarks : option (list Item);
    historyStack : list (list Item) }.

(** The error object the sqlite3 driver hands to a callback; [code] is
    absent on errors that are not driver errors. *)
Record SqlError : Type := mkSqlError
  { err_message : string;
    err_code : option string }.

(** What the script can throw: a [TypeError] raised by the engine on a
    property read of [undefined], or a driver error that is rethrown. *)
Inductive JsError : Type :=
| TypeError (msg : string)
| DriverError (e : SqlError).

Definition createChoice (favicons : Favicons) (it : Item) : Choice :=
  match it with
  | Folder b _ =>
      {| choice_name := name b;
         choice_description := None;
         choice_keyword := None;
         choice_img := None;
         choice_html := Some ("&#128193; " ++ name b)%string;
         choice_value := item it |}
  | Bookmark b u =>
      {| choice_name := name b;
         choice_description := Some u;
         choice_keyword := meta_info b ≫= Nickname;
         choice_img := favicons_get favicons u;
         choice_html := None;
         choice_value := item it |}
  end.

Definition goBackChoice : Choice :=
  {| choice_name := "⤴ ..";
     choice_description := Some "Go back";
     choice_keyword := None;
     choice_img := None;
     choice_html := None;
     choice_value := go_back |}.

(** [buildChoices()].  [bookmarks.map] throws when [bookmarks] is
    [undefined]. *)
Definition buildChoices (favicons : Favicons) (s : NavState)
  : JsError + list Choice :=
  match bookmarks s with
  | None => inl (TypeError "Cannot read properties of undefined (reading 'map')")
  | Some bs =>
      let choices := map (createChoice favicons) bs in
      inr (if (0 <? length (historyStack s))%nat
           then goBackChoice :: choices
           else choices)
  end.

(** What one pass through the body of [while (true)] does besides changing
    the two variables.  The trailing [console.log("Unknown type", type)] is
    not reachable for a value of type [Folder | Bookmark]. *)
Inductive Effect : Type :=
| Exec (command : string).

Inductive LoopControl : Type := Continue | Break.

(** The body of the loop after [arg] has returned [lastSelection]. *)
Definition loopBody (s : NavState) (lastSelection : OptionValue)
  : JsError + (NavState * list Effect * LoopControl) :=
  match lastSelection with
  | go_back =>
      let (top, rest) := pop (historyStack s) in
      inr ({| bookmarks := top; historyStack := rest |}, [], Continue)
  | item (Folder b _ as sel) =>
      match bookmarks s with
      | None =>
          inl (TypeError "Cannot read properties of undefined (reading 'find')")
      | Some bs =>
          let pushed := push (historyStack s) bs in
          match find (fun bookmark => String.eqb (item_name bookmark) (name b)) bs with
          | None =>
              inl (TypeError "Cannot read properties of undefined (reading 'children')")
          | Some found =>
              inr ({| bookmarks := Some (default [] (item_children found));
                      historyStack := pushed |}, [], Continue)
          end
      end
  | item (Bookmark _ u) =>
      inr (s, [Exec ("open " ++ dquote ++ u ++ dquote)%string], Break)
  end.

(** The loop run on a list of selections, as [arg] returns them one after
    the other.  [Break] leaves the loop, so the selections after it are
    never asked for. *)
Fixpoint navigate (s : NavState) (selections : list OptionValue)
  : JsError + (NavState * LoopControl) :=
  match selections with
  | [] => inr (s, Continue)
  | sel :: later =>
      match loopBody s sel with
      | inl e => inl e
      | inr (s', _, Continue) => navigate s' later
      | inr (s', _, Break) => inr (s', Break)
      end
  end.

(** [arg(..., choices)]: the picker returns the value of the choice the
    user picked, here given by its position in the list. *)
Definition arg (choices : list Choice) (pick : nat) : option OptionValue :=
  choice_value <$> choices !! pick.

Inductive SessionEnd : Type :=
| Crashed (e : JsError)
| Opened (s : NavState) (effects : list Effect)
| AwaitingPick (s : NavState).

(** The whole [while (true)] loop: build the choices, let the user pick one
    of them, run the body.  When the picks run out (or name no choice) the
    picker is still on screen. *)
Fixpoint session (favicons : Favicons) (s : NavState) (picks : list nat)
  : SessionEnd :=
  match buildChoices favicons s with
  | inl e => Crashed e
  | inr choices =>
      match picks with
      | [] => AwaitingPick s
      | pick :: later =>
          match arg choices pick with
          | None => AwaitingPick s
          | Some sel =>
              match loopBody s sel with
              | inl e => Crashed e
              | inr (s', _, Continue) => session favicons s' later
              | inr (s', effects, Break) => Opened s' effects
              end
          end
      end
  end.

(** ** src/scripts/bookmarks.ts: the favicon cache *)

(** [cache = await db(cacheDefaults)]: the field [favicons] of the object
    in memory ([null] is [None]) and the copy of it that [cache.write()]
    last put on disk. *)
Record Cache : Type := mkCache
  { cache_favicons : option (gmap string string);
    cache_file : option (gmap string string) }.

(** [cache.write()]. *)
Definition cache_write (c : Cache) : Cache :=
  {| cache_favicons := cache_favicons c; cache_file := cache_favicons c |}.

(** A row of the three-way join. *)
Record BookmarkFavicon : Type := mkRow
  { page_url : string;
    image_data : list Byte.byte }.

(** A promise settles once: [resolve] and [reject] on a settled promise do
    nothing. *)
Inductive Promise (A : Type) : Type :=
| Pending
| Fulfilled (v : A)
| Rejected (e : SqlError).
Arguments Pending {A}.
Arguments Fulfilled {A} v.
Arguments Rejected {A} e.

Definition resolve {A : Type} (v : A) (p : Promise A) : Promise A :=
  match p with Pending => Fulfilled v | _ => p end.

Definition reject {A : Type} (e : SqlError) (p : Promise A) : Promise A :=
  match p with Pending => Rejected e | _ => p end.

(** [BookmarkFavicon[] | "locked"]; the rows are whatever the driver passed
    as the second argument of the callback, [undefined] included. *)
Inductive QueryResult : Type :=
| locked
| rowsOf (rows : option (list BookmarkFavicon)).

(** ["code" in err && err.code === "SQLITE_BUSY"]. *)
Definition is_busy (err : SqlError) : bool :=
  match err_code err with
  | Some c => String.eqb c "SQLITE_BUSY"
  | None => false
  end.

(** The callback given to [db.all], acting on the promise it closes over. *)
Definition allCallback (err : option SqlError)
    (rows : option (list BookmarkFavicon)) (p : Promise QueryResult)
  : Promise QueryResult :=
  let p1 :=
    match err with
    | Some e =>
        let p0 := if is_busy e then resolve locked p else p in
        reject e p0
    | None => p
    end in
  resolve (rowsOf rows) p1.

(** How the driver answers one [db.all]: with the rows and no error, or
    with an error and no rows. *)
Inductive StoreReply : Type :=
| ReplyRows (rows : list BookmarkFavicon)
| ReplyError (e : SqlError).

Definition reply_err (r : StoreReply) : option SqlError :=
  match r with ReplyRows _ => None | ReplyError e => Some e end.

Definition reply_rows (r : StoreReply) : option (list BookmarkFavicon) :=
  match r with ReplyRows rows => Some rows | ReplyError _ => None end.

(** The two values offered by [databaseLockedPrompt]. *)
Inductive PromptChoice : Type := retry | without.

(** What a call does to its surroundings, in the order it does it. *)
Inductive Event : Type :=
| SetHint (text : string)
| DbOpen (file : string)
| DbAll
| DbClose
| Select
| CacheWrite.

(** The connections open after a run of events, [n] being open before. *)
Fixpoint open_connections (n : nat) (events : list Event) : nat :=
  match events with
  | [] => n
  | DbOpen _ :: later => open_connections (S n) later
  | DbClose :: later => open_connections (pred n) later
  | _ :: later => open_connections n later
  end.

(** The number of [db.all] queries in a run of events. *)
Fixpoint store_queries (events : list Event) : nat :=
  match events with
  | [] => 0
  | DbAll :: later => S (store_queries later)
  | _ :: later => store_queries later
  end.

(** What the script owns while [loadFavicons] runs: the cache object, the
    answers the user will give to the prompts, and the events so far. *)
Record World : Type := mkWorld
  { cache : Cache;
    answers : list PromptChoice;
    events : list Event }.

Definition emit (evs : list Event) (w : World) : World :=
  {| cache := cache w; answers := answers w; events := events w ++ evs |}.

(** How an [async] call ends: it returns, it throws, or it stays suspended
    on an [await] that the surroundings never answer. *)
Inductive Outcome (A : Type) : Type :=
| Returned (v : A)
| Threw (e : JsError)
| Suspended.
Arguments Returned {A} v.
Arguments Threw {A} e.
Arguments Suspended {A}.

(** [Map.prototype.set] on the entries of a [Map], kept in insertion
    order: an existing key keeps its place and takes the new value. *)
Fixpoint Map_set (key value : string) (entries : list (string * string))
  : list (string * string) :=
  match entries with
  | [] => [(key, value)]
  | (k, v) :: later =>
      if String.eqb k key then (k, value) :: later
      else (k, v) :: Map_set key value later
  end.

(** [Object.fromEntries]: a later entry of a key replaces an earlier one. *)
Definition fromEntries (entries : list (string * string)) : gmap string string :=
  fold_left (fun o kv => <[kv.1 := kv.2]> o) entries ∅.

Section FaviconCache.

(** [Buffer.prototype.toString("base64")], a function of Node. *)
Variable toBase64 : list Byte.byte -> string.

(** The reducer of [result.reduce]. *)
Definition reducer (agg : list (string * string)) (row : BookmarkFavicon)
  : list (string * string) :=
  let b64 := ("data:image/jpeg;base64," ++ toBase64 (image_data row))%string in
  Map_set (page_url row) b64 agg.

Definition b64Map (result : list BookmarkFavicon) : list (string * string) :=
  fold_left reducer result [].

Definition b64Data (result : list BookmarkFavicon) : gmap string string :=
  fromEntries (b64Map result).

(** A call ends with its outcome, the world it leaves, and the replies
    of the store it has not used. *)
Definition Run : Type := Outcome Favicons * World * list StoreReply.

(** [databaseLockedPrompt(faviconsDbFile)]; [again] is the call
    [loadFavicons(faviconsDbFile, false)] of the branch ["retry"]. *)
Definition databaseLockedPrompt (again : World -> Run)
    (store : list StoreReply) (w : World) : Run :=
  match answers w with
  | [] => (Suspended, emit [Select] w, store)
  | choice :: later =>
      let w1 :=
        emit [Select; SetHint EmptyString]
          {| cache := cache w; answers := later; events := events w |} in
      match choice with
      | without => (Returned (FavMap []), w1, store)
      | retry => again w1
      end
  end.

(** [loadFavicons(faviconsDbFile, allowCached)] on the runs in which every
    connection opens: each query takes the next reply of [store].  A
    failing open, with the open callback that rethrows its error, is added
    by [loadFaviconsOpening].  The write of [cache.write().then()] is
    taken at the point where it is started. *)
Fixpoint loadFavicons (store : list StoreReply) (faviconsDbFile : string)
    (allowCached : bool) (w : World) : Run :=
  match (if allowCached then cache_favicons (cache w) else None) with
  | Some cached => (Returned (FavObject cached), w, store)
  | None =>
      let w1 := emit [SetHint "Loading Favicons..."; DbOpen faviconsDbFile; DbAll] w in
      match store with
      | [] => (Suspended, w1, [])
      | reply :: store' =>
          match allCallback (reply_err reply) (reply_rows reply) Pending with
          | Pending => (Suspended, w1, store')
          | Rejected e => (Threw (DriverError e), w1, store')
          | Fulfilled result =>
              let w2 := emit [DbClose; SetHint EmptyString] w1 in
              match result with
              | locked =>
                  databaseLockedPrompt
                    (loadFavicons store' faviconsDbFile false) store' w2
              | rowsOf None =>
                  (Threw (TypeError "Cannot read properties of undefined (reading 'reduce')"),
                   w2, store')
              | rowsOf (Some rows) =>
                  let data := b64Data rows in
                  let c := {| cache_favicons := Some data;
                              cache_file := cache_file (cache w2) |} in
                  (Returned (FavObject data),
                   emit [CacheWrite]
                     {| cache := cache_write c; answers := answers w2;
                        events := events w2 |},
                   store')
              end
          end
      end
  end.

End FaviconCache.

(** The base64 alphabet of RFC 4648, used to run the definitions above on
    concrete rows. *)
Definition base64_alphabet : string :=
  "ABCDEFGHIJKLMNOPQRSTUVWXYZabcdefghijklmnopqrstuvwxyz0123456789+/".

Definition base64_digit (n : N) : string :=
  match String.get (N.to_nat (N.land n 63)) base64_alphabet with
  | Some c => String c EmptyString
  | None => EmptyString
  end.

Fixpoint base64 (bytes : list Byte.byte) : string :=
  match bytes with
  | [] => EmptyString
  | [a] =>
      let n := N.shiftl (Byte.to_N a) 16 in
      (base64_digit (N.shiftr n 18) ++ base64_digit (N.shiftr n 12) ++ "==")%string
  | [a; b] =>
      let n := N.lor (N.shiftl (Byte.to_N a) 16) (N.shiftl (Byte.to_N b) 8) in
      (base64_digit (N.shiftr n 18) ++ base64_digit (N.shiftr n 12)
         ++ base64_digit (N.shiftr n 6) ++ "=")%string
  | a :: b :: c :: later =>
      let n := N.lor (N.lor (N.shiftl (Byte.to_N a) 16) (N.shiftl (Byte.to_N b) 8))
                 (Byte.to_N c) in
      (base64_digit (N.shiftr n 18) ++ base64_digit (N.shiftr n 12)
         ++ base64_digit (N.shiftr n 6) ++ base64_digit n ++ base64 later)%string
  end.

(** [Map.prototype.get]. *)
Fixpoint Map_get (key : string) (entries : list (string * string)) : option string :=
  match entries with
  | [] => None
  | (k, v) :: later => if String.eqb k key then Some v else Map_get key later
  end.

(** The number of entries of a key. *)
Definition entries_of (key : string) (entries : list (string * string)) : nat :=
  length (List.filter (fun kv => String.eqb kv.1 key) entries).

(** A call reaches the store when the cache may not be used or is empty. *)
Definition cache_miss (allowCached : bool) (w : World) : Prop :=
  (if allowCached then cache_favicons (cache w) else None) = None.

(** The events of one locked query answered by a choice of the prompt. *)
Definition locked_round (faviconsDbFile : string) : list Event :=
  [SetHint "Loading Favicons..."; DbOpen faviconsDbFile; DbAll;
   DbClose; SetHint EmptyString; Select; SetHint EmptyString].

(** [choice.value === "go-back"]. *)
Definition is_go_back (c : Choice) : bool :=
  match choice_value c with go_back => true | item _ => false end.

(** ** Sample trees *)

Module Sample.

Definition base (i nm : string) : Base :=
  {| id := i; date_added := "13350000000000000"; date_last_used := "0";
     date_modified := None; guid := ("guid-" ++ i)%string; meta_info := None;
     name := nm |}.

Definition B : Item := Bookmark (base "3" "B") "http://x".
Definition A : Item := Folder (base "2" "A") [B].
Definition C : Item := Bookmark (base "4" "C") "http://y".

(** The children of the bookmark bar [{A: folder[{B}], C}]. *)
Definition bar : list Item := [A; C].

Definition at_root : NavState := {| bookmarks := Some bar; historyStack := [] |}.

(** Two folders of one name in the same list. *)
Definition mail : Item := Bookmark (base "11" "Mail") "http://mail".
Definition wiki : Item := Bookmark (base "13" "Wiki") "http://wiki".
Definition work1 : Item := Folder (base "10" "Work") [mail].
Definition work2 : Item := Folder (base "12" "Work") [wiki].

Definition twins : NavState :=
  {| bookmarks := Some [work1; work2]; historyStack := [] |}.

Definition no_favicons : Favicons := FavObject ∅.

End Sample.

(** Sample stores, caches and worlds. *)
Module SampleStore.

Definition busy : SqlError :=
  {| err_message := "SQLITE_BUSY: database is locked"; err_code := Some "SQLITE_BUSY" |}.

Definition corrupt : SqlError :=
  {| err_message := "SQLITE_CORRUPT: database disk image is malformed";
     err_code := Some "SQLITE_CORRUPT" |}.

Definition old_icons : gmap string string :=
  {[ "http://x" := "data:image/jpeg;base64,TWFu" ]}.

Definition warm : Cache :=
  {| cache_favicons := Some old_icons; cache_file := Some old_icons |}.

Definition cold : Cache := {| cache_favicons := None; cache_file := None |}.

Definition world (c : Cache) (user : list PromptChoice) : World :=
  {| cache := c; answers := user; events := [] |}.

(** Three rows, two of them for [http://x]. *)
Definition rows : list BookmarkFavicon :=
  [ {| page_url := "http://x"; image_data := [Byte.x4d; Byte.x61; Byte.x6e] |};
    {| page_url := "http://y"; image_data := [Byte.x4d] |};
    {| page_url := "http://x"; image_data := [Byte.x4d; Byte.x61] |} ].

Definition file : string := "/home/u/.config/google-chrome/Default/Favicons".

End SampleStore.

(** ** src/lib/models.ts: the root of the export *)

(** [interface Folder] as the type of a field. *)
Record FolderNode : Type := mkFolderNode
  { folder_base : Base;
    folder_children : list Item }.

Record Roots : Type := mkRoots
  { bookmark_bar : FolderNode;
    other : FolderNode;
    synced : FolderNode;
    trash : FolderNode }.

Record Root : Type := mkRoot
  { checksum : string;
    roots : Roots }.

(** ** src/scripts/bookmarks.ts: the installation files *)

Inductive SupportedBrowser : Type := Chrome | Vivaldi.

(** The string a browser kind is at run time. *)
Definition browser_string (b : SupportedBrowser) : string :=
  match b with Chrome => "Chrome" | Vivaldi => "Vivaldi" end.

(** [browserKind === "Chrome"] and [browserKind === "Vivaldi"]. *)
Definition is_Chrome (b : SupportedBrowser) : bool :=
  match b with Chrome => true | Vivaldi => false end.

Definition is_Vivaldi (b : SupportedBrowser) : bool :=
  match b with Chrome => false | Vivaldi => true end.

(** [s.includes(needle)]: [needle] occurs somewhere in [s]. *)
Fixpoint includes (s needle : string) : bool :=
  String.prefix needle s
  || match s with
     | EmptyString => false
     | String _ rest => includes rest needle
     end.

(** What [throw new Error(message)] throws. *)
Inductive ErrorObject : Type :=
| Error (message : string).

Record InstallationFiles : Type := mkFiles
  { bookmarksJsonFile : string;
    faviconsDbFile : string }.

Section Installation.

(** [String.prototype.toLowerCase]. *)
Variable toLowerCase : string -> string.
(** Kit's [home(...segments)]: a path below the home directory. *)
Variable home : list string -> string.
(** [join] of [node:path], on two arguments. *)
Variable join : string -> string -> string.
(** [pathExistsSync]: what the file system says. *)
Variable pathExistsSync : string -> bool.

(** The [switch (true)] of [installDir]: the first case that holds. *)
Definition installDir (browserKind : SupportedBrowser) (process_platform : string)
  : ErrorObject + string :=
  let platform := toLowerCase process_platform in
  if is_Chrome browserKind && includes platform "linux" then
    inr (home [".config"; "google-chrome"; "Default"])
  else if is_Chrome browserKind && includes platform "darwin" then
    inr (home ["Library"; "Application Support"; "Google"; "Chrome"; "Default"])
  else if is_Chrome browserKind && includes platform "win32" then
    inr (home ["AppData"; "Local"; "Google"; "Chrome"; "User Data"; "Default"])
  else if is_Vivaldi browserKind && includes platform "win32" then
    inr (home ["AppData"; "Local"; "Vivaldi"; "User Data"; "Default"])
  else
    inl (Error ("Not implemented: It is unknown where the "
                ++ browser_string browserKind
                ++ " bookmarks path for platform " ++ process_platform
                ++ " is. Please help us out with a pull request!")%string).

Definition getBrowserInstallationFiles (browserKind : SupportedBrowser)
    (process_platform : string) : ErrorObject + InstallationFiles :=
  match installDir browserKind process_platform with
  | inl e => inl e
  | inr dir =>
      if negb (pathExistsSync dir) then
        inl (Error (browser_string browserKind
                    ++ " bookmarks path determined to be at '" ++ dir
                    ++ "' according to system platform, but nothing exists at that location. Is "
                    ++ browser_string browserKind ++ " installed?")%string)
      else
        inr {| bookmarksJsonFile := join dir "Bookmarks";
               faviconsDbFile := join dir "Favicons" |}
  end.

End Installation.

(** ** src/scripts/bookmarks.ts: the shortcut and the script *)

(** What the shortcut tells the picker. *)
Inductive UiEvent : Type :=
| SetChoices (choices : list Choice)
| SetName (text : string).

(** The [onPress] of "Update Favicons".  [favicons] is the constant set
    when the script started; what [loadFavicons] returns here is dropped. *)
Definition onPress (toBase64 : list Byte.byte -> string) (favicons : Favicons)
    (s : NavState) (store : list StoreReply) (faviconsDbFile : string) (w : World)
  : Outcome (list UiEvent) * World * list StoreReply :=
  match loadFavicons toBase64 store faviconsDbFile false w with
  | (Returned _, w1, unused) =>
      match buildChoices favicons s with
      | inl e => (Threw e, w1, unused)
      | inr choices =>
          (Returned [SetChoices choices; SetName "Select A Bookmark!"], w1, unused)
      end
  | (Threw e, w1, unused) => (Threw e, w1, unused)
  | (Suspended, w1, unused) => (Suspended, w1, unused)
  end.

Inductive Thrown : Type :=
| ThrownError (e : ErrorObject)
| ThrownJs (e : JsError).

(** How the script ends: an exception before the loop, a load of the
    favicons that never ends, or the loop. *)
Inductive ScriptEnd : Type :=
| Aborted (t : Thrown) (w : World)
| Stalled (w : World)
| Looped (how : SessionEnd) (w : World).

Section Script.

Variable toBase64 : list Byte.byte -> string.
Variable toLowerCase : string -> string.
Variable home : list string -> string.
Variable join : string -> string -> string.
Variable pathExistsSync : string -> bool.
(** Kit's [readJson]: the parsed file, or the exception of the read. *)
Variable readJson : string -> ErrorObject + Root.

(** The statements of the module from the choice of the browser to the
    end of the loop, on runs in which the shortcut is not pressed.
    [browserKind] is what [env] returned, [w] holds the cache that [db]
    returned. *)
Definition script (browserKind : SupportedBrowser) (process_platform : string)
    (store : list StoreReply) (w : World) (picks : list nat) : ScriptEnd :=
  match getBrowserInstallationFiles toLowerCase home join pathExistsSync
          browserKind process_platform with
  | inl e => Aborted (ThrownError e) w
  | inr files =>
      match loadFavicons toBase64 store (faviconsDbFile files) true w with
      | (Threw e, w1, _) => Aborted (ThrownJs e) w1
      | (Suspended, w1, _) => Stalled w1
      | (Returned favicons, w1, _) =>
          match readJson (bookmarksJsonFile files) with
          | inl e => Aborted (ThrownError e) w1
          | inr root =>
              Looped
                (session favicons
                   {| bookmarks := Some (folder_children (bookmark_bar (roots root)));
                      historyStack := [] |}
                   picks)
                w1
          end
      end
  end.

End Script.

(** ** Measures and predicates of the properties *)

Definition is_descent (op : OptionValue) : bool :=
  match op with item (Folder _ _) => true | _ => false end.

Definition is_back (op : OptionValue) : bool :=
  match op with go_back => true | item _ => false end.

(** The folder selections and the go-back selections of a run. *)
Definition descents (ops : list OptionValue) : nat :=
  length (List.filter is_descent ops).

Definition backs (ops : list OptionValue) : nat :=
  length (List.filter is_back ops).

(** The lists of the tree below [root]: [root], the children of a folder
    of such a list, and the empty array of [?? []]. *)
Inductive within (root : list Item) : list Item -> Prop :=
| within_root : within root root
| within_child (l : list Item) (b : Base) (c : list Item) :
    within root l -> In (Folder b c) l -> within root c
| within_fresh : within root [].

(** The urls of the bookmarks of an item, itself included. *)
Fixpoint urls (it : Item) : list string :=
  match it with
  | Folder _ c => flat_map urls c
  | Bookmark _ u => [u]
  end.

(** Both variables hold lists of the tree. *)
Definition confined (root : list Item) (s : NavState) : Prop :=
  (forall l, bookmarks s = Some l -> within root l)
  /\ Forall (within root) (historyStack s).

(** The largest number of connections open at some point of a run of
    events, [n] being open before. *)
Fixpoint peak_open (n : nat) (events : list Event) : nat :=
  match events with
  | [] => n
  | ev :: later => Nat.max n (peak_open (open_connections n [ev]) later)
  end.

(** The last row of a url. *)
Definition last_row (u : string) (rows : list BookmarkFavicon)
  : option BookmarkFavicon :=
  find (fun r => String.eqb (page_url r) u) (rev rows).

(** The value the reducer stores for a row. *)
Definition data_url (toBase64 : list Byte.byte -> string) (row : BookmarkFavicon)
  : string :=
  ("data:image/jpeg;base64," ++ toBase64 (image_data row))%string.

(** Sample surroundings of the script. *)
Module SampleHost.

Definition lower_ascii (c : Ascii.ascii) : Ascii.ascii :=
  let n := Ascii.nat_of_ascii c in
  if (65 <=? n)%nat && (n <=? 90)%nat then Ascii.ascii_of_nat (n + 32) else c.

(** [toLowerCase] on strings of ASCII characters. *)
Fixpoint toLowerCase (s : string) : string :=
  match s with
  | EmptyString => EmptyString
  | String c rest => String (lower_ascii c) (toLowerCase rest)
  end.

Fixpoint join_segments (segments : list string) : string :=
  match segments with
  | [] => EmptyString
  | seg :: later => ("/" ++ seg ++ join_segments later)%string
  end.

Definition home (segments : list string) : string :=
  ("/home/u" ++ join_segments segments)%string.

Definition join (dir file : string) : string := (dir ++ "/" ++ file)%string.

(** A machine on which only the directory of Chrome on Linux exists. *)
Definition pathExistsSync (path : string) : bool :=
  String.eqb path "/home/u/.config/google-chrome/Default".

Definition folder_of (nm : string) (c : list Item) : FolderNode :=
  {| folder_base := Sample.base nm nm; folder_children := c |}.

Definition root : Root :=
  {| checksum := "0";
     roots := {| bookmark_bar := folder_of "bar" Sample.bar;
                 other := folder_of "other" [Sample.mail];
                 synced := folder_of "synced" [];
                 trash := folder_of "trash" [] |} |}.

Definition readJson (path : string) : ErrorObject + Root :=
  if String.eqb path "/home/u/.config/google-chrome/Default/Bookmarks"
  then inr root
  else inl (Error "ENOENT").

End SampleHost.

(** ** src/scripts/bookmarks.ts: the open of the favicon store

    [loadFavicons] above is the call on the runs in which every
    connection opens.  The definitions here add the open itself. *)

(** How one use of the store goes: the open fails, or the connection
    opens and the driver answers the query. *)
Inductive StoreAttempt : Type :=
| OpenFails (e : SqlError)
| Opens (reply : StoreReply).

(** The callback given to [new sqlite3.Database]: [if (err) throw err].
    The result is what it throws.  The driver calls it, not
    [loadFavicons]: the exception surfaces inside the driver. *)
Definition openCallback (err : option SqlError) : option SqlError :=
  match err with
  | Some e => Some e
  | None => None
  end.

Section FaviconCacheOpening.

Variable toBase64 : list Byte.byte -> string.

(** A call ends with its outcome, the world it leaves, the attempts it has
    not used, and the exceptions thrown inside the driver. *)
Definition OpeningRun : Type :=
  Outcome Favicons * World * list StoreAttempt * list SqlError.

(** [databaseLockedPrompt] for a call that carries attempts. *)
Definition databaseLockedPromptOpening (again : World -> OpeningRun)
    (attempts : list StoreAttempt) (w : World) : OpeningRun :=
  match answers w with
  | [] => (Suspended, emit [Select] w, attempts, [])
  | choice :: later =>
      let w1 :=
        emit [Select; SetHint EmptyString]
          {| cache := cache w; answers := later; events := events w |} in
      match choice with
      | without => (Returned (FavMap []), w1, attempts, [])
      | retry => again w1
      end
  end.

(** [loadFavicons(faviconsDbFile, allowCached)] with the open.  When the
    open fails the driver calls the open callback with the error, which
    throws it there, and never runs the query that was queued: the promise
    of the query stays pending and the call suspended on its [await]. *)
Fixpoint loadFaviconsOpening (attempts : list StoreAttempt)
    (faviconsDbFile : string) (allowCached : bool) (w : World) : OpeningRun :=
  match (if allowCached then cache_favicons (cache w) else None) with
  | Some cached => (Returned (FavObject cached), w, attempts, [])
  | None =>
      let w1 := emit [SetHint "Loading Favicons..."; DbOpen faviconsDbFile; DbAll] w in
      match attempts with
      | [] => (Suspended, w1, [], [])
      | OpenFails e :: attempts' =>
          match openCallback (Some e) with
          | Some thrown => (Suspended, w1, attempts', [thrown])
          | None => (Suspended, w1, attempts', [])
          end
      | Opens reply :: attempts' =>
          match allCallback (reply_err reply) (reply_rows reply) Pending with
          | Pending => (Suspended, w1, attempts', [])
          | Rejected e => (Threw (DriverError e), w1, attempts', [])
          | Fulfilled result =>
              let w2 := emit [DbClose; SetHint EmptyString] w1 in
              match result with
              | locked =>
                  databaseLockedPromptOpening
                    (loadFaviconsOpening attempts' faviconsDbFile false) attempts' w2
              | rowsOf None =>
                  (Threw (TypeError "Cannot read properties of undefined (reading 'reduce')"),
                   w2, attempts', [])
              | rowsOf (Some rows) =>
                  let data := b64Data toBase64 rows in
                  let c := {| cache_favicons := Some data;
                              cache_file := cache_file (cache w2) |} in
                  (Returned (FavObject data),
                   emit [CacheWrite]
                     {| cache := cache_write c; answers := answers w2;
                        events := events w2 |},
                   attempts', [])
              end
          end
      end
  end.

End FaviconCacheOpening.

(** ** src/scripts/bookmarks.ts: the passes of the loop *)

(** The loop, pass by pass: the choices the picker showed and the commands
    the body ran after the pick.  The last pass is the one in which the
    loop was left, threw, or is still waiting for a pick. *)
Fixpoint session_passes (favicons : Favicons) (s : NavState) (picks : list nat)
  : list (list Choice * list Effect) :=
  match buildChoices favicons s with
  | inl _ => []
  | inr choices =>
      match picks with
      | [] => [(choices, [])]
      | pick :: later =>
          match arg choices pick with
          | None => [(choices, [])]
          | Some sel =>
              match loopBody s sel with
              | inl _ => [(choices, [])]
              | inr (s', effects, Continue) =>
                  (choices, effects) :: session_passes favicons s' later
              | inr (_, effects, Break) => [(choices, effects)]
              end
          end
      end
  end.

Section ScriptPasses.

Variable toBase64 : list Byte.byte -> string.
Variable toLowerCase : string -> string.
Variable home : list string -> string.
Variable join : string -> string -> string.
Variable pathExistsSync : string -> bool.
Variable readJson : string -> ErrorObject + Root.

(** The passes of the loop of [script]; there is none when the script
    ends before the loop. *)
Definition script_passes (browserKind : SupportedBrowser) (process_platform : string)
    (store : list StoreReply) (w : World) (picks : list nat)
  : list (list Choice * list Effect) :=
  match getBrowserInstallationFiles toLowerCase home join pathExistsSync
          browserKind process_platform with
  | inl _ => []
  | inr files =>
      match loadFavicons toBase64 store (faviconsDbFile files) true w with
      | (Returned favicons, _, _) =>
          match readJson (bookmarksJsonFile files) with
          | inl _ => []
          | inr root =>
              session_passes favicons
                {| bookmarks := Some (folder_children (bookmark_bar (roots root)));
                   historyStack := [] |}
                picks
          end
      | (_, _, _) => []
      end
  end.

End ScriptPasses.

(** A choice shown for a list: go-back, or the entry of one of its items. *)
Definition choice_from (favicons : Favicons) (l : list Item) (c : Choice) : Prop :=
  c = goBackChoice \/ exists it, In it l /\ c = createChoice favicons it.

(** A command that opens a url of the tree below [root]. *)
Definition opens_url_of (root : list Item) (ef : Effect) : Prop :=
  exists u, In u (flat_map urls root)
            /\ ef = Exec ("open " ++ dquote ++ u ++ dquote)%string.

(** An error of the open: the file cannot be opened. *)
Definition cantopen : SqlError :=
  {| err_message := "SQLITE_CANTOPEN: unable to open database file";
     err_code := Some "SQLITE_CANTOPEN" |}.

(** ** The navigator: stack lemmas *)

Section StackFacts.
Context {A : Type}.

Lemma pop_push (a : list A) (x : A) : pop (push a x) = (Some x, a).
Proof.
  unfold push. induction a as [|y a IH]; [reflexivity|].
  cbn [app pop]. destruct (a ++ [x]) as [|z r] eqn:E.
  - destruct a; discriminate.
  - rewrite IH. reflexivity.
Qed.

Lemma pop_nonempty (a : list A) :
  a <> [] -> exists top older, a = push older top /\ pop a = (Some top, older).
Proof.
  intros Hne. destruct (exists_last Hne) as (older & top & ->).
  exists top, older. split; [reflexivity|]. apply pop_push.
Qed.

Lemma find_app_fresh (p : A -> bool) (pre post : list A) :
  Forall (fun x => p x = false) pre -> find p (pre ++ post) = find p post.
Proof.
  induction 1 as [|x pre Hx _ IH]; [reflexivity|].
  cbn [app find]. rewrite Hx. exact IH.
Qed.

Lemma find_In (p : A -> bool) (a : list A) (x : A) :
  In x a -> p x = true -> exists y, find p a = Some y /\ p y = true.
Proof.
  induction a as [|z a IH]; intros Hin Hp; [destruct Hin|].
  cbn [find]. destruct (p z) eqn:Ez; [eauto|].
  destruct Hin as [->|Hin]; [congruence|]. auto.
Qed.

End StackFacts.

(** ** The navigator: the entry list *)

Lemma createChoice_not_back (favicons : Favicons) (it : Item) :
  is_go_back (createChoice favicons it) = false.
Proof. destruct it; reflexivity. Qed.

Lemma createChoice_value (favicons : Favicons) (it : Item) :
  choice_value (createChoice favicons it) = item it.
Proof. destruct it; reflexivity. Qed.

Lemma createChoice_name (favicons : Favicons) (it : Item) :
  choice_name (createChoice favicons it) = item_name it.
Proof. destruct it; reflexivity. Qed.

Lemma filter_createChoice (favicons : Favicons) (bs : list Item) :
  List.filter (fun c => negb (is_go_back c)) (map (createChoice favicons) bs)
  = map (createChoice favicons) bs.
Proof.
  induction bs as [|b bs IH]; [reflexivity|].
  cbn [map List.filter]. rewrite createChoice_not_back. cbn. now rewrite IH.
Qed.

Lemma existsb_createChoice (favicons : Favicons) (bs : list Item) :
  existsb is_go_back (map (createChoice favicons) bs) = false.
Proof.
  induction bs as [|b bs IH]; [reflexivity|].
  cbn [map existsb]. now rewrite createChoice_not_back, IH.
Qed.

Lemma lookup_createChoice_not_back
    (favicons : Favicons) (bs : list Item) (i : nat) (c : Choice) :
  map (createChoice favicons) bs !! i = Some c -> is_go_back c = false.
Proof.
  intros Hi. apply list_elem_of_lookup_2, list_elem_of_In, in_map_iff in Hi.
  destruct Hi as (it & <- & _). apply createChoice_not_back.
Qed.

(** C3. In every state whose current list is defined, [buildChoices]
    returns a list that holds a go-back entry exactly when the history
    stack is not empty; a go-back entry can only stand at position 0; and
    the entries other than it carry, one for one and in order, the items of
    the current list (their values and their names). *)
Theorem buildChoices_back_entry_iff_history
    (favicons : Favicons) (s : NavState) (bs : list Item) :
  bookmarks s = Some bs ->
  exists choices,
    buildChoices favicons s = inr choices
    /\ (existsb is_go_back choices = true <-> historyStack s <> [])
    /\ (forall i c, choices !! i = Some c -> is_go_back c = true ->
          i = 0 /\ c = goBackChoice)
    /\ map choice_value (List.filter (fun c => negb (is_go_back c)) choices)
       = map item bs
    /\ map choice_name (List.filter (fun c => negb (is_go_back c)) choices)
       = map item_name bs.
Proof.
  intros Hbs. unfold buildChoices. rewrite Hbs.
  destruct (historyStack s) as [|h hs]; cbn [length Nat.ltb Nat.leb];
    eexists; (split; [reflexivity|]).
  - rewrite existsb_createChoice, filter_createChoice, !map_map.
    split; [split; [discriminate|congruence]|].
    split; [|split; apply map_ext; auto using createChoice_value, createChoice_name].
    intros i c Hi Hc. apply lookup_createChoice_not_back in Hi. congruence.
  - cbn [existsb List.filter is_go_back goBackChoice choice_value negb orb].
    rewrite filter_createChoice, !map_map.
    split; [split; [discriminate|reflexivity]|].
    split; [|split; apply map_ext; auto using createChoice_value, createChoice_name].
    intros [|i] c Hi Hc.
    + split; [reflexivity|]. cbn in Hi. congruence.
    + cbn in Hi. apply lookup_createChoice_not_back in Hi. congruence.
Qed.

(** The theorem at the state of the sample tree after a descent into [A]. *)
Lemma buildChoices_back_entry_iff_history_witness :
  exists choices,
    buildChoices Sample.no_favicons
      {| bookmarks := Some [Sample.B]; historyStack := [Sample.bar] |} = inr choices
    /\ (existsb is_go_back choices = true <-> [Sample.bar] <> [])
    /\ (forall i c, choices !! i = Some c -> is_go_back c = true ->
          i = 0 /\ c = goBackChoice)
    /\ map choice_value (List.filter (fun c => negb (is_go_back c)) choices)
       = map item [Sample.B]
    /\ map choice_name (List.filter (fun c => negb (is_go_back c)) choices)
       = map item_name [Sample.B].
Proof.
  apply (buildChoices_back_entry_iff_history Sample.no_favicons
           {| bookmarks := Some [Sample.B]; historyStack := [Sample.bar] |}
           [Sample.B]).
  reflexivity.
Defined.

(** The entry can only be picked when the history is not empty. *)
Lemma go_back_offered_only_with_history
    (favicons : Favicons) (s : NavState) (choices : list Choice) (pick : nat) :
  buildChoices favicons s = inr choices ->
  arg choices pick = Some go_back ->
  historyStack s <> [].
Proof.
  intros Hb Ha Hempty. unfold buildChoices in Hb.
  destruct (bookmarks s) as [bs|]; [|discriminate].
  rewrite Hempty in Hb. cbn in Hb. injection Hb as <-.
  unfold arg in Ha.
  destruct (map (createChoice favicons) bs !! pick) as [c|] eqn:Hc; [|discriminate].
  apply lookup_createChoice_not_back in Hc. cbn in Ha.
  unfold is_go_back in Hc. injection Ha as Ha. rewrite Ha in Hc. discriminate.
Qed.

(** ** The navigator: one pass of the loop *)

(** An item of the current list that is a folder can always be descended
    into: the search by name finds something. *)
Lemma descend_succeeds (s : NavState) (bs : list Item) (b : Base) (c : list Item) :
  bookmarks s = Some bs -> In (Folder b c) bs ->
  exists s1, loopBody s (item (Folder b c)) = inr (s1, [], Continue).
Proof.
  intros Hbs Hin. cbn [loopBody]. rewrite Hbs.
  destruct (find_In (fun bookmark => String.eqb (item_name bookmark) (name b))
              bs (Folder b c) Hin) as (y & -> & _); [apply String.eqb_refl|].
  eauto.
Qed.

(** The folder that is entered is the first item of the current list that
    has the name of the selection. *)
Lemma descend_first_of_name
    (s : NavState) (pre post : list Item) (b b' : Base) (c c' : list Item) :
  bookmarks s = Some (pre ++ Folder b' c' :: post) ->
  Forall (fun it => item_name it <> name b) pre ->
  name b' = name b ->
  loopBody s (item (Folder b c))
  = inr ({| bookmarks := Some c';
            historyStack := push (historyStack s) (pre ++ Folder b' c' :: post) |},
         [], Continue).
Proof.
  intros Hbs Hpre Hname. cbn [loopBody]. rewrite Hbs.
  rewrite find_app_fresh.
  - cbn [find]. unfold item_name at 1. cbn [item_base].
    rewrite Hname, String.eqb_refl. reflexivity.
  - eapply Forall_impl; [exact Hpre|]. intros it Hit. now apply String.eqb_neq.
Qed.

(** X19. The selected folder is entered, and the list it was selected
    from is pushed, when no item before it in the current list has its
    name. *)
Corollary descend_enters_selected
    (s : NavState) (pre post : list Item) (b : Base) (c : list Item) :
  bookmarks s = Some (pre ++ Folder b c :: post) ->
  Forall (fun it => item_name it <> name b) pre ->
  loopBody s (item (Folder b c))
  = inr ({| bookmarks := Some c;
            historyStack := push (historyStack s) (pre ++ Folder b c :: post) |},
         [], Continue).
Proof. intros Hbs Hpre. now apply descend_first_of_name. Qed.

(** C1. On a list with two folders called [Work], selecting the second one
    raises nothing, pushes the list, and makes the children of the FIRST
    folder current, which are not the children of the selected folder. *)
Theorem descend_same_name_enters_first :
  loopBody Sample.twins (item Sample.work2)
  = inr ({| bookmarks := Some [Sample.mail];
            historyStack := [[Sample.work1; Sample.work2]] |}, [], Continue)
  /\ item_children Sample.work2 = Some [Sample.wiki]
  /\ [Sample.mail] <> [Sample.wiki]
  /\ (exists choices,
        buildChoices Sample.no_favicons Sample.twins = inr choices
        /\ arg choices 1 = Some (item Sample.work2)).
Proof.
  split; [reflexivity|]. split; [reflexivity|]. split; [discriminate|].
  eexists. split; reflexivity.
Qed.

(** C4 as stated does not hold: with an empty history the go-back branch
    raises no error, it yields a new state whose current list is
    [undefined]. *)
Lemma go_back_empty_history_no_error :
  loopBody Sample.at_root go_back
  = inr ({| bookmarks := None; historyStack := [] |}, [], Continue)
  /\ ~ (exists e, loopBody Sample.at_root go_back = inl e).
Proof.
  split; [reflexivity|]. intros [e He]. discriminate He.
Qed.

(** C4, amended. With a non-empty history the go-back branch makes the
    most recently pushed list current, removes it from the history and
    goes on with the loop.  With an empty history the branch itself raises
    nothing: it leaves the current list [undefined] and the history empty,
    and it is the next [buildChoices] that throws a [TypeError]. *)
Theorem go_back_pops_or_leaves_undefined
    (current : option (list Item)) (older : list (list Item)) (top : list Item)
    (favicons : Favicons) :
  loopBody {| bookmarks := current; historyStack := push older top |} go_back
  = inr ({| bookmarks := Some top; historyStack := older |}, [], Continue)
  /\ loopBody {| bookmarks := current; historyStack := [] |} go_back
     = inr ({| bookmarks := None; historyStack := [] |}, [], Continue)
  /\ buildChoices favicons {| bookmarks := None; historyStack := [] |}
     = inl (TypeError "Cannot read properties of undefined (reading 'map')").
Proof.
  split; [|split; reflexivity].
  cbn [loopBody historyStack]. rewrite pop_push. reflexivity.
Qed.

(** C9. A selection that is a link leaves both variables as they were,
    runs [open] on its url and leaves the loop. *)
Theorem select_link_keeps_state (s : NavState) (sel : Item) :
  item_type sel = url ->
  exists u s',
    item_url sel = Some u
    /\ loopBody s (item sel)
       = inr (s', [Exec ("open " ++ dquote ++ u ++ dquote)%string], Break)
    /\ bookmarks s' = bookmarks s
    /\ historyStack s' = historyStack s.
Proof.
  destruct sel as [b c|b u]; [discriminate|]. intros _.
  exists u, s. repeat split.
Qed.

Lemma select_link_keeps_state_witness :
  exists u s',
    item_url Sample.C = Some u
    /\ loopBody Sample.at_root (item Sample.C)
       = inr (s', [Exec ("open " ++ dquote ++ u ++ dquote)%string], Break)
    /\ bookmarks s' = bookmarks Sample.at_root
    /\ historyStack s' = historyStack Sample.at_root.
Proof.
  apply (select_link_keeps_state Sample.at_root Sample.C). reflexivity.
Defined.

(** ** The navigator: runs of the loop *)

Lemma navigate_app (s0 s : NavState) (ops more : list OptionValue) :
  navigate s0 ops = inr (s, Continue) ->
  navigate s0 (ops ++ more) = navigate s more.
Proof.
  revert s0. induction ops as [|op ops IH]; intros s0 H.
  - cbn in H. injection H as ->. reflexivity.
  - cbn [app navigate] in *. destruct (loopBody s0 op) as [e|[[s1 eff] [|]]].
    + discriminate.
    + auto.
    + discriminate.
Qed.

(** A descent followed by go-back gives the state before the descent. *)
Lemma descend_then_back (s s1 : NavState) (f : Item) (eff : list Effect) :
  loopBody s (item f) = inr (s1, eff, Continue) ->
  loopBody s1 go_back = inr (s, [], Continue).
Proof.
  destruct s as [cur hist]. destruct f as [b c|b u]; cbn [loopBody bookmarks historyStack].
  - destruct cur as [bs|]; [|discriminate].
    destruct (find _ bs) as [found|]; [|discriminate].
    intros [= <- _]. cbn [historyStack]. rewrite pop_push. reflexivity.
  - discriminate.
Qed.

(** C2. After any run of selections that leaves the loop running in a
    state [s], a descent that succeeds followed at once by go-back leaves
    the loop running in [s] again: the current list is the list that was
    current before the descent, and so is the history. *)
Theorem descend_back_restores_current
    (s0 s s1 : NavState) (ops : list OptionValue) (f : Item) (eff : list Effect) :
  navigate s0 ops = inr (s, Continue) ->
  loopBody s (item f) = inr (s1, eff, Continue) ->
  exists s2,
    navigate s0 (ops ++ [item f; go_back]) = inr (s2, Continue)
    /\ bookmarks s2 = bookmarks s
    /\ historyStack s2 = historyStack s.
Proof.
  intros Hrun Hdown. exists s. split; [|split; reflexivity].
  rewrite (navigate_app s0 s ops _ Hrun). cbn [navigate]. rewrite Hdown.
  rewrite (descend_then_back s s1 f eff Hdown). reflexivity.
Qed.

Lemma descend_back_restores_current_witness :
  exists s2,
    navigate Sample.at_root ([item Sample.A; go_back] ++ [item Sample.A; go_back])
    = inr (s2, Continue)
    /\ bookmarks s2 = bookmarks Sample.at_root
    /\ historyStack s2 = historyStack Sample.at_root.
Proof.
  apply (descend_back_restores_current Sample.at_root Sample.at_root
           {| bookmarks := Some [Sample.B]; historyStack := [Sample.bar] |}
           [item Sample.A; go_back] Sample.A []); reflexivity.
Defined.

(** The walk of the sample tree: [A, C]; after [A]: [back, B]; after
    back: [A, C] again. *)
Example sample_walk :
  exists first s1 second,
    buildChoices Sample.no_favicons Sample.at_root = inr first
    /\ map choice_name first = ["A"; "C"]
    /\ navigate Sample.at_root [item Sample.A] = inr (s1, Continue)
    /\ buildChoices Sample.no_favicons s1 = inr second
    /\ map choice_name second = ["⤴ .."; "B"]
    /\ navigate s1 [go_back] = inr (Sample.at_root, Continue).
Proof. do 3 eexists. repeat split. Qed.

(** What the picker returns is go-back or an item of the current list. *)
Lemma arg_item_of_current
    (favicons : Favicons) (s : NavState) (bs : list Item)
    (choices : list Choice) (pick : nat) (it : Item) :
  bookmarks s = Some bs ->
  buildChoices favicons s = inr choices ->
  arg choices pick = Some (item it) ->
  In it bs.
Proof.
  intros Hbs Hb Ha. unfold buildChoices in Hb. rewrite Hbs in Hb.
  injection Hb as <-. unfold arg in Ha.
  assert (Hmap : forall i c, map (createChoice favicons) bs !! i = Some c ->
                   choice_value c = item it -> In it bs).
  { intros i c Hi Hv.
    apply list_elem_of_lookup_2, list_elem_of_In, in_map_iff in Hi.
    destruct Hi as (it' & <- & Hin). rewrite createChoice_value in Hv.
    now injection Hv as <-. }
  destruct (0 <? length (historyStack s))%nat.
  - destruct pick as [|pick]; [discriminate|]. cbn in Ha.
    destruct (map (createChoice favicons) bs !! pick) as [c|] eqn:Hc; [|discriminate].
    injection Ha as Ha. eauto.
  - destruct (map (createChoice favicons) bs !! pick) as [c|] eqn:Hc; [|discriminate].
    injection Ha as Ha. eauto.
Qed.

(** X5. The loop never throws when the user picks among the choices it
    shows: go-back is never run on an empty history and the search by name
    never fails. *)
Lemma session_never_crashes (favicons : Favicons) (picks : list nat) :
  forall (s : NavState) (bs : list Item) (e : JsError),
    bookmarks s = Some bs -> session favicons s picks <> Crashed e.
Proof.
  induction picks as [|pick picks IH]; intros s bs e Hbs; cbn [session].
  - unfold buildChoices. rewrite Hbs. discriminate.
  - destruct (buildChoices favicons s) as [e0|choices] eqn:Hb.
    { unfold buildChoices in Hb. rewrite Hbs in Hb. discriminate. }
    destruct (arg choices pick) as [[|it]|] eqn:Ha; [| |discriminate].
    + pose proof (go_back_offered_only_with_history _ _ _ _ Hb Ha) as Hne.
      destruct (pop_nonempty _ Hne) as (top & older & _ & Hpop).
      cbn [loopBody]. rewrite Hpop. eapply IH. reflexivity.
    + pose proof (arg_item_of_current _ _ _ _ _ _ Hbs Hb Ha) as Hin.
      destruct it as [b c|b u].
      * cbn [loopBody]. rewrite Hbs.
        destruct (find_In (fun bookmark => String.eqb (item_name bookmark) (name b))
                    bs (Folder b c) Hin) as (y & -> & _); [apply String.eqb_refl|].
        eapply IH. reflexivity.
      * cbn [loopBody]. discriminate.
Qed.

(** ** The favicon cache: the query callback *)

Example base64_Man : base64 [Byte.x4d; Byte.x61; Byte.x6e] = "TWFu".
Proof. reflexivity. Qed.

Example base64_Ma : base64 [Byte.x4d; Byte.x61] = "TWE=".
Proof. reflexivity. Qed.

Example base64_M : base64 [Byte.x4d] = "TQ==".
Proof. reflexivity. Qed.

Lemma allCallback_rows (rows : list BookmarkFavicon) :
  allCallback None (Some rows) Pending = Fulfilled (rowsOf (Some rows)).
Proof. reflexivity. Qed.

Lemma allCallback_busy (e : SqlError) (rows : option (list BookmarkFavicon)) :
  is_busy e = true -> allCallback (Some e) rows Pending = Fulfilled locked.
Proof. intros Hb. unfold allCallback. rewrite Hb. reflexivity. Qed.

(** After [reject(err)] the [resolve(rows)] that follows does nothing,
    whatever the driver passed as rows. *)
Lemma allCallback_fatal (e : SqlError) (rows : option (list BookmarkFavicon)) :
  is_busy e = false -> allCallback (Some e) rows Pending = Rejected e.
Proof. intros Hb. unfold allCallback. rewrite Hb. reflexivity. Qed.

Lemma open_connections_app (n : nat) (evs more : list Event) :
  open_connections n (evs ++ more) = open_connections (open_connections n evs) more.
Proof.
  revert n. induction evs as [|ev evs IH]; intros n; [reflexivity|].
  destruct ev; cbn [app open_connections]; apply IH.
Qed.

Lemma store_queries_app (evs more : list Event) :
  store_queries (evs ++ more) = store_queries evs + store_queries more.
Proof.
  induction evs as [|ev evs IH]; [reflexivity|].
  destruct ev; cbn [app store_queries]; rewrite IH; reflexivity.
Qed.

(** ** The favicon cache: the four ways through [loadFavicons] *)

Section FaviconCacheFacts.

Variable toBase64 : list Byte.byte -> string.

Local Abbreviation load := (loadFavicons toBase64).

Lemma load_cached (store : list StoreReply) (file : string) (w : World)
    (m : gmap string string) :
  cache_favicons (cache w) = Some m ->
  load store file true w = (Returned (FavObject m), w, store).
Proof. intros Hc. destruct store; cbn [loadFavicons]; rewrite Hc; reflexivity. Qed.

Lemma load_miss (store : list StoreReply) (file : string) (ac : bool) (w : World) :
  cache_miss ac w -> load store file ac w = load store file false w.
Proof.
  unfold cache_miss. intros Hm. destruct store; cbn [loadFavicons]; rewrite Hm; reflexivity.
Qed.

Lemma load_rows (store : list StoreReply) (file : string) (ac : bool) (w : World)
    (rows : list BookmarkFavicon) :
  cache_miss ac w ->
  load (ReplyRows rows :: store) file ac w
  = (Returned (FavObject (b64Data toBase64 rows)),
     {| cache := {| cache_favicons := Some (b64Data toBase64 rows);
                    cache_file := Some (b64Data toBase64 rows) |};
        answers := answers w;
        events := events w
                  ++ [SetHint "Loading Favicons..."; DbOpen file; DbAll]
                  ++ [DbClose; SetHint EmptyString] ++ [CacheWrite] |},
     store).
Proof.
  unfold cache_miss. intros Hm. cbn [loadFavicons]. rewrite Hm.
  unfold emit, cache_write. cbn. rewrite <- !app_assoc. reflexivity.
Qed.

Lemma load_fatal (store : list StoreReply) (file : string) (ac : bool) (w : World)
    (e : SqlError) :
  cache_miss ac w -> is_busy e = false ->
  load (ReplyError e :: store) file ac w
  = (Threw (DriverError e),
     emit [SetHint "Loading Favicons..."; DbOpen file; DbAll] w, store).
Proof.
  unfold cache_miss. intros Hm Hb. cbn [loadFavicons]. rewrite Hm.
  cbn [reply_err reply_rows]. rewrite (allCallback_fatal e None Hb). reflexivity.
Qed.

Lemma load_locked (store : list StoreReply) (file : string) (ac : bool) (w : World)
    (e : SqlError) :
  cache_miss ac w -> is_busy e = true ->
  load (ReplyError e :: store) file ac w
  = databaseLockedPrompt (load store file false) store
      (emit [DbClose; SetHint EmptyString]
         (emit [SetHint "Loading Favicons..."; DbOpen file; DbAll] w)).
Proof.
  unfold cache_miss. intros Hm Hb. cbn [loadFavicons]. rewrite Hm.
  cbn [reply_err reply_rows]. rewrite (allCallback_busy e None Hb). reflexivity.
Qed.

(** A locked query answered by "Retry" is a fresh call that may not use
    the cache, in a world that differs by the events of the round. *)
Lemma load_locked_retry (store : list StoreReply) (file : string) (ac : bool)
    (w : World) (e : SqlError) (later : list PromptChoice) :
  cache_miss ac w -> is_busy e = true -> answers w = retry :: later ->
  load (ReplyError e :: store) file ac w
  = load store file false
      {| cache := cache w; answers := later;
         events := events w ++ locked_round file |}.
Proof.
  intros Hm Hb Ha. rewrite (load_locked store file ac w e Hm Hb).
  unfold databaseLockedPrompt. cbn [emit answers cache events]. rewrite Ha.
  unfold locked_round, emit. cbn [answers cache events].
  rewrite <- !app_assoc. reflexivity.
Qed.

(** A locked query answered by "Continue without Favicons". *)
Lemma load_locked_without (store : list StoreReply) (file : string) (ac : bool)
    (w : World) (e : SqlError) (later : list PromptChoice) :
  cache_miss ac w -> is_busy e = true -> answers w = without :: later ->
  load (ReplyError e :: store) file ac w
  = (Returned (FavMap []),
     {| cache := cache w; answers := later;
        events := events w ++ locked_round file |},
     store).
Proof.
  intros Hm Hb Ha. rewrite (load_locked store file ac w e Hm Hb).
  unfold databaseLockedPrompt. cbn [emit answers cache events]. rewrite Ha.
  unfold locked_round, emit. cbn [answers cache events].
  rewrite <- !app_assoc. reflexivity.
Qed.

(** Any number of locked queries, each answered by "Retry". *)
Lemma load_retries (errs : list SqlError) :
  Forall (fun e => is_busy e = true) errs ->
  forall (store : list StoreReply) (file : string) (ac : bool) (w : World)
         (later : list PromptChoice),
    cache_miss ac w ->
    answers w = replicate (length errs) retry ++ later ->
    load (map ReplyError errs ++ store) file ac w
    = load store file false
        {| cache := cache w; answers := later;
           events := events w ++ concat (replicate (length errs) (locked_round file)) |}.
Proof.
  induction 1 as [|e errs He _ IH]; intros store file ac w later Hm Ha.
  - cbn in *. rewrite app_nil_r, (load_miss store file ac w Hm).
    destruct w; cbn in *; subst; reflexivity.
  - cbn [map app length replicate] in *.
    rewrite (load_locked_retry _ file ac w e _ Hm He Ha).
    rewrite (IH store file false _ later); [|reflexivity|reflexivity].
    cbn [cache answers events concat]. rewrite <- app_assoc. reflexivity.
Qed.

End FaviconCacheFacts.

(** ** The favicon cache: the map built from the rows *)

Lemma Map_get_set_eq (k v : string) (m : list (string * string)) :
  Map_get k (Map_set k v m) = Some v.
Proof.
  induction m as [|[k1 v1] m IH]; cbn [Map_set Map_get].
  - now rewrite String.eqb_refl.
  - destruct (String.eqb k1 k) eqn:E; cbn [Map_get]; rewrite E; auto.
Qed.

Lemma Map_get_set_ne (k k' v : string) (m : list (string * string)) :
  k <> k' -> Map_get k' (Map_set k v m) = Map_get k' m.
Proof.
  intros Hne. induction m as [|[k1 v1] m IH]; cbn [Map_set Map_get].
  - apply String.eqb_neq in Hne. now rewrite Hne.
  - destruct (String.eqb k1 k) eqn:E; cbn [Map_get].
    + apply String.eqb_eq in E. subst k1.
      apply String.eqb_neq in Hne. now rewrite Hne.
    + now rewrite IH.
Qed.

Lemma entries_of_cons (k k1 v1 : string) (m : list (string * string)) :
  entries_of k ((k1, v1) :: m)
  = (if String.eqb k1 k then 1 else 0) + entries_of k m.
Proof.
  unfold entries_of. cbn [List.filter fst]. destruct (String.eqb k1 k); reflexivity.
Qed.

(** [set] adds an entry for a key that has none and keeps the number of
    entries of every other key. *)
Lemma entries_of_set (k k' v : string) (m : list (string * string)) :
  entries_of k (Map_set k' v m)
  = if String.eqb k' k
    then match entries_of k m with 0 => 1 | S n => S n end
    else entries_of k m.
Proof.
  induction m as [|[k1 v1] m IH]; cbn [Map_set].
  - rewrite entries_of_cons. unfold entries_of. cbn.
    destruct (String.eqb k' k); reflexivity.
  - destruct (String.eqb k1 k') eqn:E.
    + rewrite !entries_of_cons. apply String.eqb_eq in E. subst k1.
      destruct (String.eqb k' k); reflexivity.
    + rewrite !entries_of_cons, IH.
      destruct (String.eqb k' k) eqn:E'; [|reflexivity].
      apply String.eqb_eq in E'. subst k'. rewrite E. reflexivity.
Qed.

Lemma entries_of_none (k : string) (m : list (string * string)) :
  entries_of k m = 0 -> Map_get k m = None.
Proof.
  induction m as [|[k1 v1] m IH]; [reflexivity|].
  rewrite entries_of_cons. cbn [Map_get].
  destruct (String.eqb k1 k); [discriminate|exact IH].
Qed.

(** On entries with at most one entry per key, the object made by
    [Object.fromEntries] reads like the [Map]. *)
Lemma fold_insert_get (m : list (string * string)) :
  (forall k, entries_of k m <= 1) ->
  forall (acc : gmap string string) (k : string),
    fold_left (fun o kv => <[kv.1 := kv.2]> o) m acc !! k
    = match Map_get k m with Some v => Some v | None => acc !! k end.
Proof.
  induction m as [|[k1 v1] m IH]; intros Huniq acc k; [reflexivity|].
  cbn [fold_left fst snd Map_get]. rewrite IH.
  - destruct (String.eqb k1 k) eqn:E.
    + apply String.eqb_eq in E. subst k1.
      specialize (Huniq k). rewrite entries_of_cons, String.eqb_refl in Huniq.
      rewrite entries_of_none by lia. apply lookup_insert_eq.
    + apply String.eqb_neq in E.
      destruct (Map_get k m); [reflexivity|]. now apply lookup_insert_ne.
  - intros k0. specialize (Huniq k0). rewrite entries_of_cons in Huniq. lia.
Qed.

Lemma fromEntries_get (m : list (string * string)) (k : string) :
  (forall k, entries_of k m <= 1) -> fromEntries m !! k = Map_get k m.
Proof.
  intros Huniq. unfold fromEntries. rewrite fold_insert_get by exact Huniq.
  destruct (Map_get k m); [reflexivity|apply lookup_empty].
Qed.

Section B64MapFacts.

Variable toBase64 : list Byte.byte -> string.

Local Abbreviation reduce := (fold_left (reducer toBase64)).

Lemma reduce_unique (rows : list BookmarkFavicon) :
  forall acc, (forall k, entries_of k acc <= 1) ->
              forall k, entries_of k (reduce rows acc) <= 1.
Proof.
  induction rows as [|row rows IH]; intros acc Hacc k; [apply Hacc|].
  cbn [fold_left]. apply IH. intros k0. unfold reducer.
  rewrite entries_of_set. specialize (Hacc k0).
  destruct (String.eqb (page_url row) k0); [|exact Hacc].
  destruct (entries_of k0 acc); lia.
Qed.

Lemma reduce_present (rows : list BookmarkFavicon) (k : string) :
  forall acc, 1 <= entries_of k acc -> 1 <= entries_of k (reduce rows acc).
Proof.
  induction rows as [|row rows IH]; intros acc Hacc; [exact Hacc|].
  cbn [fold_left]. apply IH. unfold reducer. rewrite entries_of_set.
  destruct (String.eqb (page_url row) k); [|exact Hacc].
  destruct (entries_of k acc); lia.
Qed.

Lemma reduce_other_rows (rows : list BookmarkFavicon) (k : string) :
  Forall (fun r => page_url r <> k) rows ->
  forall acc, Map_get k (reduce rows acc) = Map_get k acc.
Proof.
  induction 1 as [|row rows Hrow _ IH]; intros acc; [reflexivity|].
  cbn [fold_left]. rewrite IH. unfold reducer. now apply Map_get_set_ne.
Qed.

(** The entry of a url is the image of the last row of that url. *)
Lemma b64Map_last_row (pre post : list BookmarkFavicon) (u : string)
    (img : list Byte.byte) :
  Forall (fun r => page_url r <> u) post ->
  Map_get u (b64Map toBase64 (pre ++ {| page_url := u; image_data := img |} :: post))
  = Some ("data:image/jpeg;base64," ++ toBase64 img)%string
  /\ entries_of u
       (b64Map toBase64 (pre ++ {| page_url := u; image_data := img |} :: post)) = 1.
Proof.
  intros Hpost. split.
  - unfold b64Map. rewrite fold_left_app. cbn [fold_left].
    rewrite reduce_other_rows by exact Hpost.
    unfold reducer at 1. cbn [page_url image_data]. apply Map_get_set_eq.
  - apply Nat.le_antisymm.
    + unfold b64Map. apply reduce_unique. intros k. cbn. lia.
    + unfold b64Map. rewrite fold_left_app. cbn [fold_left].
      apply reduce_present. unfold reducer at 1. cbn [page_url image_data].
      rewrite entries_of_set, String.eqb_refl.
      destruct (entries_of u _); lia.
Qed.

End B64MapFacts.

(** ** The favicon cache: the properties of [loadFavicons] *)

Section LoadProperties.

Variable toBase64 : list Byte.byte -> string.

Local Abbreviation load := (loadFavicons toBase64).

(** X18. A call that returns has used a prefix of the replies in which
    every error is a busy error, and it has closed every connection it
    opened. *)
Lemma load_returned (store : list StoreReply) :
  forall (file : string) (ac : bool) (w w' : World) (v : Favicons)
         (left : list StoreReply),
    load store file ac w = (Returned v, w', left) ->
    exists used evs,
      store = used ++ left
      /\ Forall (fun r => forall e, r = ReplyError e -> is_busy e = true) used
      /\ events w' = events w ++ evs
      /\ open_connections 0 evs = 0.
Proof.
  induction store as [|reply store IH]; intros file ac w w' v left Hrun.
  - cbn [loadFavicons] in Hrun.
    destruct (if ac then cache_favicons (cache w) else None); [|discriminate].
    injection Hrun as _ <- <-. exists [], [].
    split; [reflexivity|]. split; [constructor|].
    split; [symmetry; apply app_nil_r|reflexivity].
  - destruct (if ac then cache_favicons (cache w) else None) as [m|] eqn:Hm.
    { cbn [loadFavicons] in Hrun. rewrite Hm in Hrun.
      injection Hrun as _ <- <-. exists [], [].
      split; [reflexivity|]. split; [constructor|].
      split; [symmetry; apply app_nil_r|reflexivity]. }
    destruct reply as [rows|e].
    + rewrite load_rows in Hrun by exact Hm. injection Hrun as _ <- <-.
      exists [ReplyRows rows]. eexists. cbn [events].
      split; [reflexivity|]. split; [|split; [reflexivity|reflexivity]].
      constructor; [discriminate|constructor].
    + destruct (is_busy e) eqn:Hb.
      2:{ rewrite load_fatal in Hrun by assumption. discriminate. }
      destruct (answers w) as [|[|] later] eqn:Ha.
      * rewrite load_locked in Hrun by assumption.
        unfold databaseLockedPrompt in Hrun. cbn [emit answers] in Hrun.
        rewrite Ha in Hrun. discriminate.
      * rewrite (load_locked_retry toBase64 store file ac w e later Hm Hb Ha) in Hrun.
        apply IH in Hrun. destruct Hrun as (used & evs & -> & Hused & Hev & Hopen).
        exists (ReplyError e :: used), (locked_round file ++ evs).
        cbn [events] in Hev. rewrite Hev, <- app_assoc.
        split; [reflexivity|]. split; [|split; [reflexivity|]].
        -- constructor; [|exact Hused]. intros e' [= <-]. exact Hb.
        -- rewrite open_connections_app. exact Hopen.
      * rewrite (load_locked_without toBase64 store file ac w e later Hm Hb Ha) in Hrun.
        injection Hrun as _ <- <-.
        exists [ReplyError e], (locked_round file). cbn [events].
        split; [reflexivity|]. split; [|split; reflexivity].
        constructor; [|constructor]. intros e' [= <-]. exact Hb.
Qed.

(** C7. When the cache may be used and holds a map, the call returns
    that map; it leaves the world as it was (no event at all, hence no
    open and no query) and takes no reply from the store. *)
Theorem load_cached_no_store_access
    (store : list StoreReply) (file : string) (w : World)
    (m : gmap string string) :
  cache_favicons (cache w) = Some m ->
  exists w' left,
    load store file true w = (Returned (FavObject m), w', left)
    /\ left = store
    /\ events w' = events w
    /\ store_queries (events w') = store_queries (events w)
    /\ cache w' = cache w.
Proof.
  intros Hc. exists w, store. rewrite (load_cached toBase64 store file w m Hc).
  repeat split.
Qed.

(** The part of the fifth claim that holds.  After any number of locked
    queries answered by "Retry", an error other than busy that the store
    gives in answer to the query makes the call throw that very error: no map is returned, the cache is
    as it was, and no prompt is shown for it (the answers left are those
    not used by the retries).  A busy error in its place is not thrown:
    the call closes the connection and hands over to the prompt. *)
Theorem fatal_store_error_propagates
    (errs : list SqlError) (e : SqlError) (store : list StoreReply)
    (file : string) (ac : bool) (w : World) (later : list PromptChoice) :
  Forall (fun e' => is_busy e' = true) errs ->
  is_busy e = false ->
  cache_miss ac w ->
  answers w = replicate (length errs) retry ++ later ->
  (exists w',
     load (map ReplyError errs ++ ReplyError e :: store) file ac w
     = (Threw (DriverError e), w', store)
     /\ cache w' = cache w
     /\ answers w' = later)
  /\ (forall e', is_busy e' = true ->
        load (ReplyError e' :: store) file ac w
        = databaseLockedPrompt (load store file false) store
            (emit [DbClose; SetHint EmptyString]
               (emit [SetHint "Loading Favicons..."; DbOpen file; DbAll] w))).
Proof.
  intros Herrs He Hm Ha. split.
  - rewrite (load_retries toBase64 errs Herrs _ file ac w later Hm Ha).
    rewrite load_fatal by (reflexivity || exact He).
    eexists. split; [reflexivity|]. split; reflexivity.
  - intros e' He'. now apply load_locked.
Qed.

(** C6. When the reply is a busy error and the user answers "Continue
    without Favicons", the call returns a [Map] without entries; the cache
    object and its file are as they were; and if the cache held a map, a
    following call that may use the cache returns that map, whatever the
    store would reply. *)
Theorem locked_without_keeps_cache
    (e : SqlError) (store : list StoreReply) (file : string) (ac : bool)
    (w : World) (later : list PromptChoice) :
  cache_miss ac w ->
  is_busy e = true ->
  answers w = without :: later ->
  exists w',
    load (ReplyError e :: store) file ac w = (Returned (FavMap []), w', store)
    /\ cache w' = cache w
    /\ (forall m store2 file2,
          cache_favicons (cache w) = Some m ->
          load store2 file2 true w' = (Returned (FavObject m), w', store2)).
Proof.
  intros Hm Hb Ha.
  rewrite (load_locked_without toBase64 store file ac w e later Hm Hb Ha).
  eexists. split; [reflexivity|]. split; [reflexivity|].
  intros m store2 file2 Hc. now apply load_cached.
Qed.

(** C10. When the rows hold a row of url [u] and image [img] with no
    row of [u] after it (any rows, of [u] or not, before it), the call
    returns an object whose entry for [u] is the data url of [img]; the
    [Map] it was made from has exactly one entry of key [u], with that
    value; and that object is what the cache holds afterwards. *)
Theorem duplicate_rows_last_wins
    (pre post : list BookmarkFavicon) (u : string) (img : list Byte.byte)
    (store : list StoreReply) (file : string) (ac : bool) (w : World) :
  cache_miss ac w ->
  Forall (fun r => page_url r <> u) post ->
  exists data w',
    load (ReplyRows (pre ++ {| page_url := u; image_data := img |} :: post) :: store)
      file ac w
    = (Returned (FavObject data), w', store)
    /\ data !! u = Some ("data:image/jpeg;base64," ++ toBase64 img)%string
    /\ entries_of u
         (b64Map toBase64 (pre ++ {| page_url := u; image_data := img |} :: post)) = 1
    /\ Map_get u
         (b64Map toBase64 (pre ++ {| page_url := u; image_data := img |} :: post))
       = Some ("data:image/jpeg;base64," ++ toBase64 img)%string
    /\ cache_favicons (cache w') = Some data.
Proof.
  intros Hm Hpost. rewrite load_rows by exact Hm.
  destruct (b64Map_last_row toBase64 pre post u img Hpost) as [Hget Hone].
  do 2 eexists. split; [reflexivity|]. split; [|split; [exact Hone|split; [exact Hget|reflexivity]]].
  unfold b64Data. rewrite fromEntries_get; [exact Hget|].
  intros k. unfold b64Map. apply reduce_unique. intros k0. cbn. lia.
Qed.

End LoadProperties.

(** *** The theorems at the sample store *)

Lemma load_cached_no_store_access_witness :
  exists w' left,
    loadFavicons base64 [ReplyError SampleStore.corrupt] SampleStore.file true
      (SampleStore.world SampleStore.warm [])
    = (Returned (FavObject SampleStore.old_icons), w', left)
    /\ left = [ReplyError SampleStore.corrupt]
    /\ events w' = events (SampleStore.world SampleStore.warm [])
    /\ store_queries (events w')
       = store_queries (events (SampleStore.world SampleStore.warm []))
    /\ cache w' = cache (SampleStore.world SampleStore.warm []).
Proof.
  apply (load_cached_no_store_access base64 [ReplyError SampleStore.corrupt]
           SampleStore.file (SampleStore.world SampleStore.warm [])
           SampleStore.old_icons).
  reflexivity.
Defined.

Lemma fatal_store_error_propagates_witness :
  (exists w',
     loadFavicons base64
       (map ReplyError [SampleStore.busy] ++ ReplyError SampleStore.corrupt :: [])
       SampleStore.file false (SampleStore.world SampleStore.warm [retry; without])
     = (Threw (DriverError SampleStore.corrupt), w', [])
     /\ cache w' = cache (SampleStore.world SampleStore.warm [retry; without])
     /\ answers w' = [without])
  /\ (forall e', is_busy e' = true ->
        loadFavicons base64 (ReplyError e' :: []) SampleStore.file false
          (SampleStore.world SampleStore.warm [retry; without])
        = databaseLockedPrompt (loadFavicons base64 [] SampleStore.file false) []
            (emit [DbClose; SetHint EmptyString]
               (emit [SetHint "Loading Favicons..."; DbOpen SampleStore.file; DbAll]
                  (SampleStore.world SampleStore.warm [retry; without])))).
Proof.
  apply (fatal_store_error_propagates base64 [SampleStore.busy] SampleStore.corrupt []
           SampleStore.file false (SampleStore.world SampleStore.warm [retry; without])
           [without]).
  - repeat constructor.
  - reflexivity.
  - reflexivity.
  - reflexivity.
Defined.

Lemma locked_without_keeps_cache_witness :
  exists w',
    loadFavicons base64 (ReplyError SampleStore.busy :: []) SampleStore.file false
      (SampleStore.world SampleStore.warm [without])
    = (Returned (FavMap []), w', [])
    /\ cache w' = cache (SampleStore.world SampleStore.warm [without])
    /\ (forall m store2 file2,
          cache_favicons (cache (SampleStore.world SampleStore.warm [without])) = Some m ->
          loadFavicons base64 store2 file2 true w' = (Returned (FavObject m), w', store2)).
Proof.
  apply (locked_without_keeps_cache base64 SampleStore.busy [] SampleStore.file false
           (SampleStore.world SampleStore.warm [without]) []); reflexivity.
Defined.

Lemma duplicate_rows_last_wins_witness :
  exists data w',
    loadFavicons base64
      (ReplyRows ([ {| page_url := "http://x"; image_data := [Byte.x4d; Byte.x61; Byte.x6e] |};
                    {| page_url := "http://y"; image_data := [Byte.x4d] |} ]
                  ++ {| page_url := "http://x"; image_data := [Byte.x4d; Byte.x61] |} :: [])
       :: [])
      SampleStore.file true (SampleStore.world SampleStore.cold [])
    = (Returned (FavObject data), w', [])
    /\ data !! "http://x" = Some ("data:image/jpeg;base64," ++ base64 [Byte.x4d; Byte.x61])%string
    /\ entries_of "http://x"
         (b64Map base64
            ([ {| page_url := "http://x"; image_data := [Byte.x4d; Byte.x61; Byte.x6e] |};
               {| page_url := "http://y"; image_data := [Byte.x4d] |} ]
             ++ {| page_url := "http://x"; image_data := [Byte.x4d; Byte.x61] |} :: [])) = 1
    /\ Map_get "http://x"
         (b64Map base64
            ([ {| page_url := "http://x"; image_data := [Byte.x4d; Byte.x61; Byte.x6e] |};
               {| page_url := "http://y"; image_data := [Byte.x4d] |} ]
             ++ {| page_url := "http://x"; image_data := [Byte.x4d; Byte.x61] |} :: []))
       = Some ("data:image/jpeg;base64," ++ base64 [Byte.x4d; Byte.x61])%string
    /\ cache_favicons (cache w') = Some data.
Proof.
  apply (duplicate_rows_last_wins base64
           [ {| page_url := "http://x"; image_data := [Byte.x4d; Byte.x61; Byte.x6e] |};
             {| page_url := "http://y"; image_data := [Byte.x4d] |} ]
           [] "http://x" [Byte.x4d; Byte.x61] [] SampleStore.file true
           (SampleStore.world SampleStore.cold [])).
  - reflexivity.
  - constructor.
Defined.

(** The map of the sample rows, as it is built. *)
Example sample_b64Map :
  b64Map base64 SampleStore.rows
  = [("http://x", "data:image/jpeg;base64,TWE="); ("http://y", "data:image/jpeg;base64,TQ==")].
Proof. reflexivity. Qed.

(** C8. With a store that replies to the query with an error other than
    busy, the call throws after the events hint, open, query: there is no
    close, and one connection is still open when the error reaches the
    caller.  On the same world a reply of rows, and a locked reply
    answered by "Continue without Favicons", both end with no connection
    open. *)
Theorem fatal_error_leaves_connection_open :
  (exists w',
     loadFavicons base64 [ReplyError SampleStore.corrupt] SampleStore.file false
       (SampleStore.world SampleStore.warm [])
     = (Threw (DriverError SampleStore.corrupt), w', [])
     /\ events w' = [SetHint "Loading Favicons..."; DbOpen SampleStore.file; DbAll]
     /\ open_connections 0 (events w') = 1)
  /\ (exists v w',
        loadFavicons base64 [ReplyRows SampleStore.rows] SampleStore.file false
          (SampleStore.world SampleStore.warm [])
        = (Returned v, w', [])
        /\ open_connections 0 (events w') = 0)
  /\ (exists v w',
        loadFavicons base64 [ReplyError SampleStore.busy] SampleStore.file false
          (SampleStore.world SampleStore.warm [without])
        = (Returned v, w', [])
        /\ open_connections 0 (events w') = 0).
Proof.
  split; [|split].
  - eexists. split; [reflexivity|]. split; reflexivity.
  - do 2 eexists. split; reflexivity.
  - do 2 eexists. split; reflexivity.
Qed.

(** X20. Every reply that is an error other than busy makes the call
    throw with the connection it opened still open: one more is open than
    before the call. *)
Lemma load_fatal_leaks (toBase64 : list Byte.byte -> string)
    (e : SqlError) (store : list StoreReply) (file : string) (ac : bool) (w : World) :
  cache_miss ac w -> is_busy e = false ->
  exists w',
    loadFavicons toBase64 (ReplyError e :: store) file ac w
    = (Threw (DriverError e), w', store)
    /\ open_connections 0 (events w') = S (open_connections 0 (events w)).
Proof.
  intros Hm Hb. rewrite load_fatal by assumption. eexists. split; [reflexivity|].
  unfold emit. cbn [events]. rewrite open_connections_app. reflexivity.
Qed.

(** ** More on the navigator *)

Section FindFacts.
Context {A : Type}.

Lemma find_none (p : A -> bool) (a : list A) :
  find p a = None <-> Forall (fun x => p x = false) a.
Proof.
  induction a as [|x a IH]; cbn [find].
  - split; [constructor|reflexivity].
  - destruct (p x) eqn:E.
    + split; [discriminate|]. intros H. inversion H; congruence.
    + rewrite IH. split; [now constructor|]. intros H. now inversion H.
Qed.

Lemma find_some_In (p : A -> bool) (a : list A) (y : A) :
  find p a = Some y -> In y a /\ p y = true.
Proof.
  induction a as [|x a IH]; cbn [find]; [discriminate|].
  destruct (p x) eqn:E.
  - intros [= <-]. split; [now left|exact E].
  - intros H. destruct (IH H). split; [now right|assumption].
Qed.

Lemma find_app (p : A -> bool) (a more : list A) :
  find p (a ++ more)
  = match find p a with Some x => Some x | None => find p more end.
Proof.
  induction a as [|x a IH]; [reflexivity|].
  cbn [app find]. destruct (p x); [reflexivity|exact IH].
Qed.

Lemma pop_some (a older : list A) (top : A) :
  pop a = (Some top, older) -> a = push older top.
Proof.
  intros Hpop. destruct a as [|x a]; [discriminate|].
  destruct (pop_nonempty (x :: a)) as (t & o & Ha & Hp); [discriminate|].
  rewrite Hp in Hpop. injection Hpop as -> ->. exact Ha.
Qed.

Lemma pop_none (a rest : list A) :
  pop a = (None, rest) -> a = [] /\ rest = [].
Proof.
  destruct a as [|x a]; [now intros [= <-]|].
  destruct (pop_nonempty (x :: a)) as (t & o & _ & Hp); [discriminate|].
  rewrite Hp. discriminate.
Qed.

End FindFacts.

(** X1. A selection that is a folder goes through exactly when some item
    of the current list has its name; when none has, the pass throws the
    [TypeError] of reading [children] of [undefined]. *)
Theorem descend_succeeds_iff_name_present
    (s : NavState) (bs : list Item) (b : Base) (c : list Item) :
  bookmarks s = Some bs ->
  ((exists s1, loopBody s (item (Folder b c)) = inr (s1, [], Continue))
   <-> (exists it, In it bs /\ item_name it = name b))
  /\ ((forall it, In it bs -> item_name it <> name b) ->
      loopBody s (item (Folder b c))
      = inl (TypeError "Cannot read properties of undefined (reading 'children')")).
Proof.
  intros Hbs. cbn [loopBody]. rewrite Hbs.
  destruct (find (fun bookmark => String.eqb (item_name bookmark) (name b)) bs)
    as [found|] eqn:Hf.
  - apply find_some_In in Hf. destruct Hf as [Hin Hname].
    apply String.eqb_eq in Hname. split.
    + split; [eauto|]. intros _. eauto.
    + intros Hnone. exfalso. exact (Hnone found Hin Hname).
  - split; [|reflexivity]. split.
    + intros [s1 H]. discriminate.
    + intros (it & Hin & Hname). apply find_none in Hf.
      rewrite Forall_forall in Hf. apply list_elem_of_In, Hf in Hin.
      apply String.eqb_neq in Hin. contradiction.
Qed.

Lemma descend_succeeds_iff_name_present_witness :
  ((exists s1, loopBody Sample.at_root (item (Folder (Sample.base "9" "A") []))
               = inr (s1, [], Continue))
   <-> (exists it, In it Sample.bar /\ item_name it = name (Sample.base "9" "A")))
  /\ ((forall it, In it Sample.bar -> item_name it <> name (Sample.base "9" "A")) ->
      loopBody Sample.at_root (item (Folder (Sample.base "9" "A") []))
      = inl (TypeError "Cannot read properties of undefined (reading 'children')")).
Proof.
  apply (descend_succeeds_iff_name_present Sample.at_root Sample.bar
           (Sample.base "9" "A") []).
  reflexivity.
Defined.

(** Once the current list is [undefined] and the history empty, the loop
    stays there as long as it runs. *)
Lemma navigate_undefined_stays (ops : list OptionValue) (s : NavState) :
  navigate {| bookmarks := None; historyStack := [] |} ops = inr (s, Continue) ->
  s = {| bookmarks := None; historyStack := [] |}.
Proof.
  induction ops as [|op ops IH]; cbn [navigate]; [now intros [= <-]|].
  destruct op as [|[b c|b u]]; cbn [loopBody pop historyStack bookmarks].
  - exact IH.
  - discriminate.
  - discriminate.
Qed.

(** X2. When a run of selections leaves the loop running with a defined
    current list, the history is as deep as it was at the start plus the
    folder selections minus the go-back selections of the run. *)
Theorem history_depth_accounting (ops : list OptionValue) :
  forall (s0 s : NavState),
    navigate s0 ops = inr (s, Continue) ->
    bookmarks s <> None ->
    length (historyStack s) + backs ops
    = length (historyStack s0) + descents ops.
Proof.
  induction ops as [|op ops IH]; intros s0 s Hrun Hdef.
  - cbn in Hrun. injection Hrun as <-. reflexivity.
  - cbn [navigate] in Hrun.
    destruct op as [|[b c|b u]]; cbn [loopBody] in Hrun.
    + destruct (pop (historyStack s0)) as [[top|] older] eqn:Hpop.
      * apply pop_some in Hpop. specialize (IH _ _ Hrun Hdef).
        cbn [historyStack] in IH. rewrite Hpop. unfold push.
        rewrite length_app. unfold backs, descents in *.
        cbn [List.filter is_back is_descent length] in *. lia.
      * apply pop_none in Hpop. destruct Hpop as [_ ->].
        apply navigate_undefined_stays in Hrun. subst s. now elim Hdef.
    + destruct (bookmarks s0) as [bs|]; [|discriminate].
      destruct (find _ bs) as [found|]; [|discriminate].
      specialize (IH _ _ Hrun Hdef). cbn [historyStack] in IH.
      unfold push in IH. rewrite length_app in IH.
      unfold backs, descents in *.
      cbn [List.filter is_back is_descent length] in *. lia.
    + discriminate.
Qed.

Lemma history_depth_accounting_witness :
  length (historyStack {| bookmarks := Some [Sample.B]; historyStack := [Sample.bar] |})
  + backs [item Sample.A; go_back; item Sample.A]
  = length (historyStack Sample.at_root)
    + descents [item Sample.A; go_back; item Sample.A].
Proof.
  apply (history_depth_accounting [item Sample.A; go_back; item Sample.A]
           Sample.at_root
           {| bookmarks := Some [Sample.B]; historyStack := [Sample.bar] |}).
  - reflexivity.
  - discriminate.
Defined.

(** X3. After a run of folder selections that all go through, as many
    go-back selections as there were folders lead back to the state the
    run started from. *)
Theorem descents_then_backs_restore (path : list Item) :
  forall (s s1 : NavState),
    navigate s (map item path) = inr (s1, Continue) ->
    navigate s1 (replicate (length path) go_back) = inr (s, Continue).
Proof.
  induction path as [|f path IH]; intros s s1 Hrun.
  - cbn in *. now injection Hrun as <-.
  - cbn [map navigate] in Hrun.
    destruct (loopBody s (item f)) as [e|[[s' eff] [|]]] eqn:Hdown;
      [discriminate| |destruct f; discriminate].
    cbn [length]. rewrite replicate_S_end.
    rewrite (navigate_app s1 s' _ _ (IH _ _ Hrun)).
    cbn [navigate]. rewrite (descend_then_back s s' f eff Hdown). reflexivity.
Qed.

Lemma descents_then_backs_restore_witness :
  navigate {| bookmarks := Some [Sample.B]; historyStack := [Sample.bar] |}
    (replicate (length [Sample.A]) go_back)
  = inr (Sample.at_root, Continue).
Proof.
  apply (descents_then_backs_restore [Sample.A] Sample.at_root
           {| bookmarks := Some [Sample.B]; historyStack := [Sample.bar] |}).
  reflexivity.
Defined.

(** X4. After a folder selection that goes through, [buildChoices] does
    not throw and its list is the go-back entry followed by the entries
    of the new current list; that list is empty, so that go-back is the
    only entry, when the item found under the name is a folder without
    children or a bookmark. *)
Theorem descent_shows_back_first
    (favicons : Favicons) (s s1 : NavState) (bs : list Item) (b : Base)
    (c : list Item) (eff : list Effect) :
  bookmarks s = Some bs ->
  loopBody s (item (Folder b c)) = inr (s1, eff, Continue) ->
  exists found cur,
    find (fun bookmark => String.eqb (item_name bookmark) (name b)) bs = Some found
    /\ bookmarks s1 = Some cur
    /\ cur = default [] (item_children found)
    /\ buildChoices favicons s1 = inr (goBackChoice :: map (createChoice favicons) cur)
    /\ (item_children found = Some [] \/ item_children found = None ->
        buildChoices favicons s1 = inr [goBackChoice]).
Proof.
  intros Hbs Hdown. cbn [loopBody] in Hdown. rewrite Hbs in Hdown.
  destruct (find _ bs) as [found|] eqn:Hf; [|discriminate].
  injection Hdown as <- _. exists found, (default [] (item_children found)).
  split; [reflexivity|]. split; [reflexivity|]. split; [reflexivity|].
  assert (Hb : buildChoices favicons
                 {| bookmarks := Some (default [] (item_children found));
                    historyStack := push (historyStack s) bs |}
               = inr (goBackChoice
                      :: map (createChoice favicons) (default [] (item_children found)))).
  { unfold buildChoices, push. cbn [bookmarks historyStack].
    rewrite length_app. cbn [length].
    replace (length (historyStack s) + 1) with (S (length (historyStack s))) by lia.
    reflexivity. }
  split; [exact Hb|]. intros [Hc|Hc]; rewrite Hb, Hc; reflexivity.
Qed.

Lemma descent_shows_back_first_witness :
  exists found cur,
    find (fun bookmark => String.eqb (item_name bookmark) (name (Sample.base "2" "A")))
      Sample.bar = Some found
    /\ bookmarks {| bookmarks := Some [Sample.B]; historyStack := [Sample.bar] |} = Some cur
    /\ cur = default [] (item_children found)
    /\ buildChoices Sample.no_favicons
         {| bookmarks := Some [Sample.B]; historyStack := [Sample.bar] |}
       = inr (goBackChoice :: map (createChoice Sample.no_favicons) cur)
    /\ (item_children found = Some [] \/ item_children found = None ->
        buildChoices Sample.no_favicons
          {| bookmarks := Some [Sample.B]; historyStack := [Sample.bar] |}
        = inr [goBackChoice]).
Proof.
  apply (descent_shows_back_first Sample.no_favicons Sample.at_root
           {| bookmarks := Some [Sample.B]; historyStack := [Sample.bar] |}
           Sample.bar (Sample.base "2" "A") [Sample.B] []); reflexivity.
Defined.

(** *** The loop stays inside the tree *)

Lemma within_urls (root l : list Item) :
  within root l ->
  forall it u, In it l -> In u (urls it) -> In u (flat_map urls root).
Proof.
  induction 1 as [|l b c _ IH Hin|]; intros it u Hit Hu.
  - apply in_flat_map. eauto.
  - apply (IH (Folder b c) u Hin). cbn [urls]. apply in_flat_map. eauto.
  - destruct Hit.
Qed.

Lemma loopBody_confined (root : list Item) (s s' : NavState)
    (sel : OptionValue) (eff : list Effect) (ctl : LoopControl) :
  confined root s -> loopBody s sel = inr (s', eff, ctl) -> confined root s'.
Proof.
  intros [Hcur Hhist] Hstep. destruct sel as [|[b c|b u]]; cbn [loopBody] in Hstep.
  - destruct (pop (historyStack s)) as [[top|] older] eqn:Hpop;
      injection Hstep as <- _ _.
    + apply pop_some in Hpop. rewrite Hpop in Hhist. unfold push in Hhist.
      apply Forall_app in Hhist. destruct Hhist as [Holder Htop].
      split; cbn [bookmarks historyStack]; [|exact Holder].
      intros l [= <-]. now inversion Htop.
    + apply pop_none in Hpop. destruct Hpop as [_ ->].
      split; cbn [bookmarks historyStack]; [discriminate|constructor].
  - destruct (bookmarks s) as [bs|] eqn:Hbs; [|discriminate].
    destruct (find _ bs) as [found|] eqn:Hf; [|discriminate].
    injection Hstep as <- _ _. apply find_some_In in Hf. destruct Hf as [Hin _].
    split; cbn [bookmarks historyStack].
    + intros l [= <-]. destruct found as [b' c'|b' u']; cbn [item_children default].
      * eapply within_child; [apply Hcur; reflexivity|exact Hin].
      * apply within_fresh.
    + unfold push. apply Forall_app. split; [exact Hhist|].
      constructor; [|constructor]. now apply Hcur.
  - injection Hstep as <- _ _. split; assumption.
Qed.

Lemma confined_start (root : list Item) :
  confined root {| bookmarks := Some root; historyStack := [] |}.
Proof.
  split; cbn [bookmarks historyStack]; [|constructor].
  intros l [= <-]. apply within_root.
Qed.



(** A pass that goes on with the loop runs no command. *)
Lemma loopBody_continue_silent (s s' : NavState) (sel : OptionValue)
    (eff : list Effect) :
  loopBody s sel = inr (s', eff, Continue) -> eff = [].
Proof.
  destruct sel as [|[b c|b u]]; cbn [loopBody].
  - destruct (pop (historyStack s)). now intros [= _ <-].
  - destruct (bookmarks s) as [bs|]; [|discriminate].
    destruct (find _ bs); [|discriminate]. now intros [= _ <-].
  - discriminate.
Qed.

(** The choices shown are go-back and the entries of the current list. *)
Lemma buildChoices_from_current (favicons : Favicons) (s : NavState)
    (choices : list Choice) :
  buildChoices favicons s = inr choices ->
  exists bs, bookmarks s = Some bs /\ Forall (choice_from favicons bs) choices.
Proof.
  unfold buildChoices. destruct (bookmarks s) as [bs|]; [|discriminate].
  intros [= <-]. exists bs. split; [reflexivity|].
  assert (Hall : Forall (choice_from favicons bs) (map (createChoice favicons) bs)).
  { apply Forall_forall. intros c Hc. apply list_elem_of_In, in_map_iff in Hc.
    destruct Hc as (it & <- & Hin). right. eauto. }
  destruct (0 <? length (historyStack s))%nat; [|exact Hall].
  constructor; [now left|exact Hall].
Qed.

Lemma session_passes_confined (favicons : Favicons) (root : list Item)
    (picks : list nat) :
  forall (s : NavState) (choices : list Choice) (effects : list Effect),
    confined root s ->
    In (choices, effects) (session_passes favicons s picks) ->
    (exists l, within root l /\ Forall (choice_from favicons l) choices)
    /\ Forall (opens_url_of root) effects.
Proof.
  induction picks as [|pick picks IH]; intros s choices effects Hconf Hin;
    cbn [session_passes] in Hin;
    destruct (buildChoices favicons s) as [e|shown] eqn:Hb; try (now destruct Hin);
    destruct (buildChoices_from_current favicons s shown Hb) as (bs & Hbs & Hshown);
    assert (Hhere : (exists l, within root l /\ Forall (choice_from favicons l) shown)
                    /\ Forall (opens_url_of root) [])
      by (split; [exists bs; split; [now apply Hconf|exact Hshown]|constructor]).
  - destruct Hin as [[= <- <-]|[]]. exact Hhere.
  - destruct (arg shown pick) as [sel|] eqn:Ha;
      [|destruct Hin as [[= <- <-]|[]]; exact Hhere].
    destruct (loopBody s sel) as [e|[[s1 eff] [|]]] eqn:Hstep.
    + destruct Hin as [[= <- <-]|[]]. exact Hhere.
    + destruct Hin as [[= <- <-]|Hin].
      * rewrite (loopBody_continue_silent s s1 sel eff Hstep). exact Hhere.
      * eapply IH; [|exact Hin]. eapply loopBody_confined; eassumption.
    + destruct Hin as [[= <- <-]|[]]. split; [exact (proj1 Hhere)|].
      destruct sel as [|[b c|b u]]; cbn [loopBody] in Hstep.
      * destruct (pop (historyStack s)); discriminate.
      * rewrite Hbs in Hstep. destruct (find _ bs); discriminate.
      * injection Hstep as _ <-. constructor; [|constructor].
        exists u. split; [|reflexivity].
        apply (within_urls root bs (proj1 Hconf bs Hbs) (Bookmark b u) u); [|now left].
        eapply arg_item_of_current; eassumption.
Qed.

(** The passes agree with [session]: when the loop is left, the commands
    of all passes together are the commands [session] reports. *)
Lemma session_passes_opened (favicons : Favicons) (picks : list nat) :
  forall (s s' : NavState) (effects : list Effect),
    session favicons s picks = Opened s' effects ->
    concat (map snd (session_passes favicons s picks)) = effects.
Proof.
  induction picks as [|pick picks IH]; intros s s' effects Hrun;
    cbn [session session_passes] in *;
    destruct (buildChoices favicons s) as [e|shown]; try discriminate.
  destruct (arg shown pick) as [sel|]; [|discriminate].
  destruct (loopBody s sel) as [e|[[s1 eff] [|]]] eqn:Hstep; [discriminate| |].
  - cbn [map snd concat]. rewrite (loopBody_continue_silent s s1 sel eff Hstep).
    cbn [app]. eapply IH. exact Hrun.
  - injection Hrun as _ <-. cbn. apply app_nil_r.
Qed.



(** The passes of the sample walk into [A] and onto [B]. *)
Example sample_passes :
  map (fun pass => (map choice_name (fst pass), snd pass))
    (session_passes Sample.no_favicons Sample.at_root [0; 1])
  = [(["A"; "C"], []);
     (["⤴ .."; "B"], [Exec ("open " ++ dquote ++ "http://x" ++ dquote)%string])].
Proof. reflexivity. Qed.

(** ** More on the favicon cache *)

Lemma Map_get_set (k k' v : string) (m : list (string * string)) :
  Map_get k' (Map_set k v m) = if String.eqb k k' then Some v else Map_get k' m.
Proof.
  destruct (String.eqb k k') eqn:E.
  - apply String.eqb_eq in E. subst k'. apply Map_get_set_eq.
  - apply String.eqb_neq in E. now apply Map_get_set_ne.
Qed.

Section RowFacts.

Variable toBase64 : list Byte.byte -> string.

Lemma reduce_get (rows : list BookmarkFavicon) :
  forall (acc : list (string * string)) (u : string),
    Map_get u (fold_left (reducer toBase64) rows acc)
    = match last_row u rows with
      | Some r => Some (data_url toBase64 r)
      | None => Map_get u acc
      end.
Proof.
  induction rows as [|r rows IH]; intros acc u; [reflexivity|].
  cbn [fold_left]. rewrite IH. unfold last_row. cbn [rev]. rewrite find_app.
  destruct (find _ (rev rows)) as [x|]; [reflexivity|].
  cbn [find]. unfold reducer. rewrite Map_get_set.
  destruct (String.eqb (page_url r) u); reflexivity.
Qed.

Lemma last_row_none (u : string) (rows : list BookmarkFavicon) :
  last_row u rows = None <-> Forall (fun r => page_url r <> u) rows.
Proof.
  unfold last_row. rewrite find_none.
  split; intros H; apply Forall_forall; intros r Hr; rewrite Forall_forall in H.
  - apply String.eqb_neq, H, list_elem_of_In, in_rev.
    rewrite rev_involutive. now apply list_elem_of_In.
  - apply String.eqb_neq, H, list_elem_of_In, in_rev, list_elem_of_In, Hr.
Qed.

(** X8. The object built from the rows has, for every url, the data url
    of the image of the last row of that url, and no entry for a url that
    no row has. *)
Theorem b64Data_is_last_row (rows : list BookmarkFavicon) (u : string) :
  b64Data toBase64 rows !! u = data_url toBase64 <$> last_row u rows
  /\ (b64Data toBase64 rows !! u = None
      <-> Forall (fun r => page_url r <> u) rows).
Proof.
  assert (Hget : b64Data toBase64 rows !! u = data_url toBase64 <$> last_row u rows).
  { unfold b64Data. rewrite fromEntries_get.
    - unfold b64Map. rewrite reduce_get. now destruct (last_row u rows).
    - intros k. unfold b64Map. apply reduce_unique. intros k0. cbn. lia. }
  split; [exact Hget|]. rewrite Hget, <- last_row_none.
  destruct (last_row u rows); cbn; split; congruence.
Qed.

End RowFacts.

Lemma open_connections_cons (n : nat) (ev : Event) (later : list Event) :
  open_connections n (ev :: later)
  = open_connections (open_connections n [ev]) later.
Proof. destruct ev; reflexivity. Qed.

Lemma peak_open_app (evs more : list Event) :
  forall n,
    peak_open n (evs ++ more)
    = Nat.max (peak_open n evs) (peak_open (open_connections n evs) more).
Proof.
  induction evs as [|ev evs IH]; intros n.
  - cbn [app peak_open open_connections].
    destruct more; cbn [peak_open]; lia.
  - cbn [app peak_open]. rewrite IH, (open_connections_cons n ev evs). lia.
Qed.

Section LoadRuns.

Variable toBase64 : list Byte.byte -> string.
Variable file : string.

Local Abbreviation load := (loadFavicons toBase64).

(** A locked query with nobody to answer the prompt. *)
Lemma load_locked_pending (store : list StoreReply) (ac : bool) (w : World)
    (e : SqlError) :
  cache_miss ac w -> is_busy e = true -> answers w = [] ->
  load (ReplyError e :: store) file ac w
  = (Suspended,
     {| cache := cache w; answers := [];
        events := events w
                  ++ [SetHint "Loading Favicons..."; DbOpen file; DbAll;
                      DbClose; SetHint EmptyString; Select] |},
     store).
Proof.
  intros Hm Hb Ha. rewrite (load_locked toBase64 store file ac w e Hm Hb).
  unfold databaseLockedPrompt. cbn [emit answers cache events]. rewrite Ha.
  unfold emit. cbn [answers cache events]. rewrite Ha, <- !app_assoc. reflexivity.
Qed.

(** Induction over the runs of [loadFavicons], one case for each way
    through a call. *)
Lemma load_run_ind (P : list StoreReply -> bool -> World -> Run -> Prop) :
  (forall store w m,
      cache_favicons (cache w) = Some m ->
      P store true w (Returned (FavObject m), w, store)) ->
  (forall ac w,
      cache_miss ac w ->
      P [] ac w
        (Suspended, emit [SetHint "Loading Favicons..."; DbOpen file; DbAll] w, [])) ->
  (forall store ac w rows,
      cache_miss ac w ->
      P (ReplyRows rows :: store) ac w (load (ReplyRows rows :: store) file ac w)) ->
  (forall store ac w e,
      cache_miss ac w -> is_busy e = false ->
      P (ReplyError e :: store) ac w
        (Threw (DriverError e),
         emit [SetHint "Loading Favicons..."; DbOpen file; DbAll] w, store)) ->
  (forall store ac w e,
      cache_miss ac w -> is_busy e = true -> answers w = [] ->
      P (ReplyError e :: store) ac w (load (ReplyError e :: store) file ac w)) ->
  (forall store ac w e later,
      cache_miss ac w -> is_busy e = true -> answers w = without :: later ->
      P (ReplyError e :: store) ac w
        (Returned (FavMap []),
         {| cache := cache w; answers := later;
            events := events w ++ locked_round file |}, store)) ->
  (forall store ac w e later,
      cache_miss ac w -> is_busy e = true -> answers w = retry :: later ->
      let w' := {| cache := cache w; answers := later;
                   events := events w ++ locked_round file |} in
      P store false w' (load store file false w') ->
      P (ReplyError e :: store) ac w (load store file false w')) ->
  forall store ac w, P store ac w (load store file ac w).
Proof.
  intros Hhit Hdry Hrows Hfatal Hpending Hwithout Hretry.
  induction store as [|reply store IH]; intros ac w.
  - destruct (if ac then cache_favicons (cache w) else None) as [m|] eqn:Hm.
    + destruct ac; [|discriminate]. rewrite (load_cached toBase64 [] file w m Hm).
      now apply Hhit.
    + replace (load [] file ac w)
        with (Suspended : Outcome Favicons,
              emit [SetHint "Loading Favicons..."; DbOpen file; DbAll] w,
              @nil StoreReply)
        by (cbn [loadFavicons]; rewrite Hm; reflexivity).
      now apply Hdry.
  - destruct (if ac then cache_favicons (cache w) else None) as [m|] eqn:Hm.
    + destruct ac; [|discriminate]. rewrite (load_cached toBase64 _ file w m Hm).
      now apply Hhit.
    + destruct reply as [rows|e]; [now apply Hrows|].
      destruct (is_busy e) eqn:Hb.
      * destruct (answers w) as [|[|] later] eqn:Ha.
        -- now apply Hpending.
        -- rewrite (load_locked_retry toBase64 store file ac w e later Hm Hb Ha).
           apply (Hretry store ac w e later Hm Hb Ha). apply IH.
        -- rewrite (load_locked_without toBase64 store file ac w e later Hm Hb Ha).
           now apply Hwithout.
      * rewrite (load_fatal toBase64 store file ac w e Hm Hb). now apply Hfatal.
Qed.

(** X9. After any number of locked queries answered by "Retry", a reply
    of rows makes the call return the object built from these rows; the
    cache holds that object in memory and on file; and a following call
    that may use the cache returns it without touching the store. *)
Theorem retry_then_rows_persists
    (errs : list SqlError) (rows : list BookmarkFavicon)
    (store : list StoreReply) (ac : bool) (w : World) (later : list PromptChoice) :
  Forall (fun e => is_busy e = true) errs ->
  cache_miss ac w ->
  answers w = replicate (length errs) retry ++ later ->
  exists w',
    load (map ReplyError errs ++ ReplyRows rows :: store) file ac w
    = (Returned (FavObject (b64Data toBase64 rows)), w', store)
    /\ cache w' = {| cache_favicons := Some (b64Data toBase64 rows);
                     cache_file := Some (b64Data toBase64 rows) |}
    /\ answers w' = later
    /\ (forall store2 file2,
          loadFavicons toBase64 store2 file2 true w'
          = (Returned (FavObject (b64Data toBase64 rows)), w', store2)).
Proof.
  intros Herrs Hm Ha.
  rewrite (load_retries toBase64 errs Herrs _ file ac w later Hm Ha).
  rewrite load_rows by reflexivity.
  eexists. split; [reflexivity|]. split; [reflexivity|]. split; [reflexivity|].
  intros store2 file2. now apply load_cached.
Qed.

(** X10. A call changes the cache only by storing the object built from a
    reply of rows, in memory and on file alike; a call that throws, that
    stays suspended, or that returns the empty [Map] leaves the cache as
    it was. *)
Theorem load_changes_cache_only_on_rows
    (store : list StoreReply) (ac : bool) (w w' : World)
    (o : Outcome Favicons) (unused : list StoreReply) :
  load store file ac w = (o, w', unused) ->
  (cache w' = cache w
   \/ exists rows,
        In (ReplyRows rows) store
        /\ o = Returned (FavObject (b64Data toBase64 rows))
        /\ cache w' = {| cache_favicons := Some (b64Data toBase64 rows);
                         cache_file := Some (b64Data toBase64 rows) |})
  /\ ((forall m, o <> Returned (FavObject m)) -> cache w' = cache w).
Proof.
  revert w' o unused.
  apply (load_run_ind
           (fun store ac w r =>
              forall w' o unused, r = (o, w', unused) ->
                (cache w' = cache w
                 \/ exists rows,
                      In (ReplyRows rows) store
                      /\ o = Returned (FavObject (b64Data toBase64 rows))
                      /\ cache w' = {| cache_favicons := Some (b64Data toBase64 rows);
                                       cache_file := Some (b64Data toBase64 rows) |})
                /\ ((forall m, o <> Returned (FavObject m)) -> cache w' = cache w))).
  - intros st w0 m _ w' o unused [= <- <- _]. split; [now left|reflexivity].
  - intros ac0 w0 _ w' o unused [= <- <- _]. split; [now left|reflexivity].
  - intros st ac0 w0 rows Hm w' o unused. rewrite load_rows by exact Hm.
    intros [= <- <- _]. split.
    + right. exists rows. split; [now left|]. split; reflexivity.
    + intros Hno. now elim (Hno (b64Data toBase64 rows)).
  - intros st ac0 w0 e _ _ w' o unused [= <- <- _]. split; [now left|reflexivity].
  - intros st ac0 w0 e Hm Hb Ha w' o unused.
    rewrite (load_locked_pending st ac0 w0 e Hm Hb Ha).
    intros [= <- <- _]. split; [now left|reflexivity].
  - intros st ac0 w0 e later _ _ _ w' o unused [= <- <- _].
    split; [now left|reflexivity].
  - intros st ac0 w0 e later _ _ _ w1 IH w' o unused Hrun.
    destruct (IH w' o unused Hrun) as [[Hsame|(rows & Hin & Ho & Hc)] Hfail].
    + split; [left; exact Hsame|exact Hfail].
    + split; [|exact Hfail]. right. exists rows. split; [now right|]. now split.
Qed.

(** X11. A call that ends (returns or throws) has made exactly as many
    queries as it has taken replies from the store, and at least one when
    the cache could not serve it. *)
Theorem load_queries_match_replies
    (store : list StoreReply) (ac : bool) (w w' : World)
    (o : Outcome Favicons) (unused : list StoreReply) :
  load store file ac w = (o, w', unused) ->
  o <> Suspended ->
  exists used evs,
    store = used ++ unused
    /\ events w' = events w ++ evs
    /\ store_queries evs = length used
    /\ (cache_miss ac w -> 1 <= length used).
Proof.
  revert w' o unused.
  apply (load_run_ind
           (fun store ac w r =>
              forall w' o unused, r = (o, w', unused) -> o <> Suspended ->
                exists used evs,
                  store = used ++ unused
                  /\ events w' = events w ++ evs
                  /\ store_queries evs = length used
                  /\ (cache_miss ac w -> 1 <= length used))).
  - intros st w0 m Hc w' o unused [= <- <- <-] _. exists [], [].
    split; [reflexivity|]. split; [symmetry; apply app_nil_r|].
    split; [reflexivity|]. unfold cache_miss. rewrite Hc. discriminate.
  - intros ac0 w0 _ w' o unused [= <- _ _] Hne. now elim Hne.
  - intros st ac0 w0 rows Hm w' o unused. rewrite load_rows by exact Hm.
    intros [= <- <- <-] _. exists [ReplyRows rows]. eexists. cbn [events].
    split; [reflexivity|]. split; [reflexivity|]. split; [reflexivity|]. cbn. lia.
  - intros st ac0 w0 e _ _ w' o unused [= <- <- <-] _.
    exists [ReplyError e]. eexists. unfold emit. cbn [events].
    split; [reflexivity|]. split; [reflexivity|]. split; [reflexivity|]. cbn. lia.
  - intros st ac0 w0 e Hm Hb Ha w' o unused.
    rewrite (load_locked_pending st ac0 w0 e Hm Hb Ha).
    intros [= <- _ _] Hne. now elim Hne.
  - intros st ac0 w0 e later _ _ _ w' o unused [= <- <- <-] _.
    exists [ReplyError e], (locked_round file). cbn [events].
    split; [reflexivity|]. split; [reflexivity|]. split; [reflexivity|]. cbn. lia.
  - intros st ac0 w0 e later _ _ _ w1 IH w' o unused Hrun Hne.
    destruct (IH w' o unused Hrun Hne) as (used & evs & -> & Hev & Hq & _).
    exists (ReplyError e :: used), (locked_round file ++ evs).
    subst w1. cbn [events] in Hev. rewrite Hev, <- app_assoc.
    split; [reflexivity|]. split; [reflexivity|].
    rewrite store_queries_app, Hq. cbn. split; lia.
Qed.

(** X12. Within one call, retries included, there are never two
    connections open at the same time. *)
Theorem load_never_two_connections
    (store : list StoreReply) (ac : bool) (w w' : World)
    (o : Outcome Favicons) (unused : list StoreReply) :
  load store file ac w = (o, w', unused) ->
  exists evs, events w' = events w ++ evs /\ peak_open 0 evs <= 1.
Proof.
  revert w' o unused.
  apply (load_run_ind
           (fun store ac w r =>
              forall w' o unused, r = (o, w', unused) ->
                exists evs, events w' = events w ++ evs /\ peak_open 0 evs <= 1)).
  - intros st w0 m _ w' o unused [= _ <- _]. exists [].
    split; [symmetry; apply app_nil_r|cbn; lia].
  - intros ac0 w0 _ w' o unused [= _ <- _]. eexists. unfold emit. cbn [events].
    split; [reflexivity|cbn; lia].
  - intros st ac0 w0 rows Hm w' o unused. rewrite load_rows by exact Hm.
    intros [= _ <- _]. eexists. cbn [events]. split; [reflexivity|cbn; lia].
  - intros st ac0 w0 e _ _ w' o unused [= _ <- _]. eexists. unfold emit. cbn [events].
    split; [reflexivity|cbn; lia].
  - intros st ac0 w0 e Hm Hb Ha w' o unused.
    rewrite (load_locked_pending st ac0 w0 e Hm Hb Ha).
    intros [= _ <- _]. eexists. cbn [events]. split; [reflexivity|cbn; lia].
  - intros st ac0 w0 e later _ _ _ w' o unused [= _ <- _].
    exists (locked_round file). cbn [events]. split; [reflexivity|cbn; lia].
  - intros st ac0 w0 e later _ _ _ w1 IH w' o unused Hrun.
    destruct (IH w' o unused Hrun) as (evs & Hev & Hpeak).
    exists (locked_round file ++ evs). subst w1. cbn [events] in Hev.
    rewrite Hev, <- app_assoc. split; [reflexivity|].
    rewrite peak_open_app.
    change (open_connections 0 (locked_round file)) with 0.
    change (peak_open 0 (locked_round file)) with 1. lia.
Qed.

End LoadRuns.

(** *** The theorems on runs at the sample store *)

Lemma retry_then_rows_persists_witness :
  exists w',
    loadFavicons base64
      (map ReplyError [SampleStore.busy] ++ ReplyRows SampleStore.rows :: [])
      SampleStore.file false (SampleStore.world SampleStore.warm [retry])
    = (Returned (FavObject (b64Data base64 SampleStore.rows)), w', [])
    /\ cache w' = {| cache_favicons := Some (b64Data base64 SampleStore.rows);
                     cache_file := Some (b64Data base64 SampleStore.rows) |}
    /\ answers w' = []
    /\ (forall store2 file2,
          loadFavicons base64 store2 file2 true w'
          = (Returned (FavObject (b64Data base64 SampleStore.rows)), w', store2)).
Proof.
  apply (retry_then_rows_persists base64 SampleStore.file [SampleStore.busy]
           SampleStore.rows [] false (SampleStore.world SampleStore.warm [retry]) []).
  - repeat constructor.
  - reflexivity.
  - reflexivity.
Defined.

Lemma load_changes_cache_only_on_rows_witness :
  (cache (emit [SetHint "Loading Favicons..."; DbOpen SampleStore.file; DbAll]
            (SampleStore.world SampleStore.warm []))
   = cache (SampleStore.world SampleStore.warm [])
   \/ exists rows,
        In (ReplyRows rows) [ReplyError SampleStore.corrupt]
        /\ Threw (DriverError SampleStore.corrupt)
           = Returned (FavObject (b64Data base64 rows))
        /\ cache (emit [SetHint "Loading Favicons..."; DbOpen SampleStore.file; DbAll]
                    (SampleStore.world SampleStore.warm []))
           = {| cache_favicons := Some (b64Data base64 rows);
                cache_file := Some (b64Data base64 rows) |})
  /\ ((forall m, Threw (DriverError SampleStore.corrupt) <> Returned (FavObject m)) ->
      cache (emit [SetHint "Loading Favicons..."; DbOpen SampleStore.file; DbAll]
               (SampleStore.world SampleStore.warm []))
      = cache (SampleStore.world SampleStore.warm [])).
Proof.
  apply (load_changes_cache_only_on_rows base64 SampleStore.file
           [ReplyError SampleStore.corrupt] false
           (SampleStore.world SampleStore.warm []) _ _ []).
  reflexivity.
Defined.

Lemma load_queries_match_replies_witness :
  exists used evs,
    [ReplyError SampleStore.busy; ReplyRows SampleStore.rows; ReplyRows []]
    = used ++ [ReplyRows []]
    /\ events
         {| cache := {| cache_favicons := Some (b64Data base64 SampleStore.rows);
                        cache_file := Some (b64Data base64 SampleStore.rows) |};
            answers := [];
            events := locked_round SampleStore.file
                      ++ [SetHint "Loading Favicons..."; DbOpen SampleStore.file; DbAll;
                          DbClose; SetHint EmptyString; CacheWrite] |}
       = events (SampleStore.world SampleStore.cold [retry]) ++ evs
    /\ store_queries evs = length used
    /\ (cache_miss true (SampleStore.world SampleStore.cold [retry]) -> 1 <= length used).
Proof.
  apply (load_queries_match_replies base64 SampleStore.file
           [ReplyError SampleStore.busy; ReplyRows SampleStore.rows; ReplyRows []]
           true (SampleStore.world SampleStore.cold [retry]) _
           (Returned (FavObject (b64Data base64 SampleStore.rows)))).
  - reflexivity.
  - discriminate.
Defined.

Lemma load_never_two_connections_witness :
  exists evs,
    events
      {| cache := {| cache_favicons := Some (b64Data base64 SampleStore.rows);
                     cache_file := Some (b64Data base64 SampleStore.rows) |};
         answers := [];
         events := locked_round SampleStore.file
                   ++ [SetHint "Loading Favicons..."; DbOpen SampleStore.file; DbAll;
                       DbClose; SetHint EmptyString; CacheWrite] |}
    = events (SampleStore.world SampleStore.cold [retry]) ++ evs
    /\ peak_open 0 evs <= 1.
Proof.
  apply (load_never_two_connections base64 SampleStore.file
           [ReplyError SampleStore.busy; ReplyRows SampleStore.rows]
           true (SampleStore.world SampleStore.cold [retry]) _
           (Returned (FavObject (b64Data base64 SampleStore.rows))) []).
  reflexivity.
Defined.

(** ** The open of the favicon store *)

(** When every connection opens, the call with the open is the call
    without it. *)
Lemma loadFaviconsOpening_opens (toBase64 : list Byte.byte -> string)
    (store : list StoreReply) :
  forall (file : string) (ac : bool) (w : World),
    loadFaviconsOpening toBase64 (map Opens store) file ac w
    = (let '(o, w', unused) := loadFavicons toBase64 store file ac w in
       (o, w', map Opens unused, [])).
Proof.
  induction store as [|reply store IH]; intros file ac w;
    cbn [map loadFaviconsOpening loadFavicons];
    destruct (if ac then cache_favicons (cache w) else None); try reflexivity.
  destruct reply as [rows|e]; cbn [reply_err reply_rows]; [reflexivity|].
  unfold allCallback. destruct (is_busy e); cbn [resolve reject]; [|reflexivity].
  unfold databaseLockedPromptOpening, databaseLockedPrompt.
  destruct (answers _) as [|[|] later]; [reflexivity|apply IH|reflexivity].
Qed.


(** C5. With a store whose open fails with an error that is not the busy
    error, the call does not throw that error to its caller: the open
    callback throws it inside the driver, the query is never answered, and
    the call stays suspended on it. *)
Theorem open_error_never_reaches_caller :
  is_busy cantopen = false
  /\ loadFaviconsOpening base64 [OpenFails cantopen] SampleStore.file false
       (SampleStore.world SampleStore.warm [])
     = (Suspended,
        {| cache := SampleStore.warm; answers := [];
           events := [SetHint "Loading Favicons..."; DbOpen SampleStore.file; DbAll] |},
        [], [cantopen])
  /\ ~ (exists w' unused thrown,
          loadFaviconsOpening base64 [OpenFails cantopen] SampleStore.file false
            (SampleStore.world SampleStore.warm [])
          = (Threw (DriverError cantopen), w', unused, thrown)).
Proof.
  split; [reflexivity|]. split; [reflexivity|].
  intros (w' & unused & thrown & H). discriminate H.
Qed.

(** ** The shortcut "Update Favicons" *)

(** X13. Pressed in a state with a defined current list while the store
    replies with rows, the shortcut queries the store although the cache
    may be full, stores the new object in the cache, and hands the picker
    the list [buildChoices] makes from the favicons of the start of the
    script: the image of every bookmark entry is the one those favicons
    have for its url, not the one just loaded. *)
Theorem onPress_keeps_startup_images
    (toBase64 : list Byte.byte -> string) (favicons : Favicons)
    (s : NavState) (bs : list Item) (rows : list BookmarkFavicon)
    (store : list StoreReply) (file : string) (w : World) :
  bookmarks s = Some bs ->
  exists choices w',
    onPress toBase64 favicons s (ReplyRows rows :: store) file w
    = (Returned [SetChoices choices; SetName "Select A Bookmark!"], w', store)
    /\ buildChoices favicons s = inr choices
    /\ store_queries (events w') = S (store_queries (events w))
    /\ cache_favicons (cache w') = Some (b64Data toBase64 rows)
    /\ (forall b u,
          In (Bookmark b u) bs ->
          exists c, In c choices
                    /\ choice_value c = item (Bookmark b u)
                    /\ choice_img c = favicons_get favicons u).
Proof.
  intros Hbs. unfold onPress. rewrite load_rows by reflexivity.
  unfold buildChoices. rewrite Hbs.
  do 2 eexists. split; [reflexivity|]. split; [reflexivity|].
  cbn [events cache cache_favicons]. split; [|split; [reflexivity|]].
  - rewrite !store_queries_app. cbn. lia.
  - intros b u Hin. exists (createChoice favicons (Bookmark b u)).
    split; [|split; reflexivity].
    assert (In (createChoice favicons (Bookmark b u)) (map (createChoice favicons) bs))
      by (apply in_map_iff; eauto).
    destruct (0 <? length (historyStack s))%nat; [now right|assumption].
Qed.

Lemma onPress_keeps_startup_images_witness :
  exists choices w',
    onPress base64 Sample.no_favicons Sample.at_root
      (ReplyRows SampleStore.rows :: []) SampleStore.file
      (SampleStore.world SampleStore.warm [])
    = (Returned [SetChoices choices; SetName "Select A Bookmark!"], w', [])
    /\ buildChoices Sample.no_favicons Sample.at_root = inr choices
    /\ store_queries (events w')
       = S (store_queries (events (SampleStore.world SampleStore.warm [])))
    /\ cache_favicons (cache w') = Some (b64Data base64 SampleStore.rows)
    /\ (forall b u,
          In (Bookmark b u) Sample.bar ->
          exists c, In c choices
                    /\ choice_value c = item (Bookmark b u)
                    /\ choice_img c = favicons_get Sample.no_favicons u).
Proof.
  apply (onPress_keeps_startup_images base64 Sample.no_favicons Sample.at_root
           Sample.bar SampleStore.rows [] SampleStore.file
           (SampleStore.world SampleStore.warm [])).
  reflexivity.
Defined.

(** ** The installation files *)

Example includes_examples :
  includes "linux" "linux" = true
  /\ includes "x86_64-linux-gnu" "linux" = true
  /\ includes "darwin" "win32" = false
  /\ includes EmptyString "linux" = false
  /\ includes "win32" EmptyString = true.
Proof. repeat split. Qed.

Section InstallationFacts.

Variable toLowerCase : string -> string.
Variable home : list string -> string.
Variable join : string -> string -> string.
Variable pathExistsSync : string -> bool.

Local Abbreviation files_of :=
  (getBrowserInstallationFiles toLowerCase home join pathExistsSync).

(** X14. The function throws the "Not implemented" error exactly for the
    combinations it has no case for: Chrome on a platform whose lower-case
    name includes none of linux, darwin and win32, and Vivaldi on a
    platform whose name does not include win32.  For these it throws that
    error whatever the file system holds; for the others it throws it on
    no file system. *)
Theorem unsupported_combination_throws
    (browserKind : SupportedBrowser) (process_platform : string) :
  let platform := toLowerCase process_platform in
  let unsupported :=
    negb (is_Chrome browserKind
            && (includes platform "linux" || includes platform "darwin"
                || includes platform "win32")
          || is_Vivaldi browserKind && includes platform "win32") in
  let thrown :=
    Error ("Not implemented: It is unknown where the "
           ++ browser_string browserKind
           ++ " bookmarks path for platform " ++ process_platform
           ++ " is. Please help us out with a pull request!")%string in
  (unsupported = true
   <-> forall exists_ : string -> bool,
         getBrowserInstallationFiles toLowerCase home join exists_
           browserKind process_platform = inl thrown)
  /\ (unsupported = false
      <-> forall exists_ : string -> bool,
            getBrowserInstallationFiles toLowerCase home join exists_
              browserKind process_platform <> inl thrown).
Proof.
  cbn zeta.
  assert (Hcases :
            forall exists_ : string -> bool,
              negb (is_Chrome browserKind
                      && (includes (toLowerCase process_platform) "linux"
                          || includes (toLowerCase process_platform) "darwin"
                          || includes (toLowerCase process_platform) "win32")
                    || is_Vivaldi browserKind
                       && includes (toLowerCase process_platform) "win32") = true
              <-> getBrowserInstallationFiles toLowerCase home join exists_
                    browserKind process_platform
                  = inl (Error ("Not implemented: It is unknown where the "
                                ++ browser_string browserKind
                                ++ " bookmarks path for platform " ++ process_platform
                                ++ " is. Please help us out with a pull request!")%string)).
  { intros exists_. unfold getBrowserInstallationFiles, installDir.
    destruct browserKind; cbn [is_Chrome is_Vivaldi andb orb browser_string];
      destruct (includes (toLowerCase process_platform) "linux");
      destruct (includes (toLowerCase process_platform) "darwin");
      destruct (includes (toLowerCase process_platform) "win32");
      cbn [orb andb negb];
      try (split; [reflexivity|reflexivity]);
      (split; [discriminate|]);
      match goal with
      | |- context [exists_ ?d] => destruct (exists_ d)
      end; cbn [negb]; discriminate. }
  split.
  - split.
    + intros Hu exists_. now apply Hcases.
    + intros Hall. apply (Hcases (fun _ => true)), Hall.
  - split.
    + intros Hu exists_ Hthrown. apply Hcases in Hthrown. congruence.
    + intros Hall. apply not_true_is_false. intros Hu.
      apply (Hall (fun _ => true)). now apply Hcases.
Qed.

(** X15. Files are only returned from a directory that exists: both lie
    in one of the four known directories, named [Bookmarks] and
    [Favicons]; for Vivaldi it is the Vivaldi directory of Windows, and
    for a platform whose name includes linux it is the one below
    [.config].  When the directory of a supported combination does not
    exist the function throws and returns nothing. *)
Theorem installation_files_in_existing_dir
    (browserKind : SupportedBrowser) (process_platform : string)
    (files : InstallationFiles) :
  files_of browserKind process_platform = inr files ->
  exists dir,
    pathExistsSync dir = true
    /\ bookmarksJsonFile files = join dir "Bookmarks"
    /\ faviconsDbFile files = join dir "Favicons"
    /\ In dir [home [".config"; "google-chrome"; "Default"];
               home ["Library"; "Application Support"; "Google"; "Chrome"; "Default"];
               home ["AppData"; "Local"; "Google"; "Chrome"; "User Data"; "Default"];
               home ["AppData"; "Local"; "Vivaldi"; "User Data"; "Default"]]
    /\ (browserKind = Vivaldi ->
        dir = home ["AppData"; "Local"; "Vivaldi"; "User Data"; "Default"])
    /\ (browserKind = Chrome ->
        includes (toLowerCase process_platform) "linux" = true ->
        dir = home [".config"; "google-chrome"; "Default"]).
Proof.
  unfold getBrowserInstallationFiles, installDir.
  destruct browserKind; cbn [is_Chrome is_Vivaldi andb];
    destruct (includes (toLowerCase process_platform) "linux");
    destruct (includes (toLowerCase process_platform) "darwin");
    destruct (includes (toLowerCase process_platform) "win32");
    cbn [andb]; try discriminate;
    match goal with
    | |- context [pathExistsSync ?d] => destruct (pathExistsSync d) eqn:Hex
    end; cbn [negb]; try discriminate;
    intros [= <-]; eexists; (split; [exact Hex|]);
    cbn [bookmarksJsonFile faviconsDbFile In];
    repeat split; auto; try discriminate; try congruence.
Qed.

End InstallationFacts.

Lemma installation_files_in_existing_dir_witness :
  exists dir,
    SampleHost.pathExistsSync dir = true
    /\ bookmarksJsonFile
         {| bookmarksJsonFile := "/home/u/.config/google-chrome/Default/Bookmarks";
            faviconsDbFile := "/home/u/.config/google-chrome/Default/Favicons" |}
       = SampleHost.join dir "Bookmarks"
    /\ faviconsDbFile
         {| bookmarksJsonFile := "/home/u/.config/google-chrome/Default/Bookmarks";
            faviconsDbFile := "/home/u/.config/google-chrome/Default/Favicons" |}
       = SampleHost.join dir "Favicons"
    /\ In dir [SampleHost.home [".config"; "google-chrome"; "Default"];
               SampleHost.home ["Library"; "Application Support"; "Google"; "Chrome"; "Default"];
               SampleHost.home ["AppData"; "Local"; "Google"; "Chrome"; "User Data"; "Default"];
               SampleHost.home ["AppData"; "Local"; "Vivaldi"; "User Data"; "Default"]]
    /\ (Chrome = Vivaldi ->
        dir = SampleHost.home ["AppData"; "Local"; "Vivaldi"; "User Data"; "Default"])
    /\ (Chrome = Chrome ->
        includes (SampleHost.toLowerCase "Linux") "linux" = true ->
        dir = SampleHost.home [".config"; "google-chrome"; "Default"]).
Proof.
  apply (installation_files_in_existing_dir SampleHost.toLowerCase SampleHost.home
           SampleHost.join SampleHost.pathExistsSync Chrome "Linux").
  reflexivity.
Defined.

Example vivaldi_on_linux :
  getBrowserInstallationFiles SampleHost.toLowerCase SampleHost.home
    SampleHost.join SampleHost.pathExistsSync Vivaldi "linux"
  = inl (Error "Not implemented: It is unknown where the Vivaldi bookmarks path for platform linux is. Please help us out with a pull request!").
Proof. reflexivity. Qed.

Example chrome_on_darwin_missing :
  getBrowserInstallationFiles SampleHost.toLowerCase SampleHost.home
    SampleHost.join SampleHost.pathExistsSync Chrome "darwin"
  = inl (Error "Chrome bookmarks path determined to be at '/home/u/Library/Application Support/Google/Chrome/Default' according to system platform, but nothing exists at that location. Is Chrome installed?").
Proof. reflexivity. Qed.

(** ** The script as a whole *)

Section ScriptFacts.

Variable toBase64 : list Byte.byte -> string.
Variable toLowerCase : string -> string.
Variable home : list string -> string.
Variable join : string -> string -> string.
Variable pathExistsSync : string -> bool.
Variable readJson : string -> ErrorObject + Root.

Local Abbreviation run_script :=
  (script toBase64 toLowerCase home join pathExistsSync readJson).

Local Abbreviation passes_of :=
  (script_passes toBase64 toLowerCase home join pathExistsSync readJson).

(** X16. In every pass of the loop of the script, on runs in which the
    shortcut is not pressed, the installation directory was found and the
    bookmarks file was read; the choices shown are go-back and entries of
    items of one list of the tree below the bookmark bar of that file, so
    that the roots [other], [synced] and [trash] are not browsed; and
    every command run in the pass is [open] on the url of a bookmark
    somewhere below the bookmark bar. *)
Theorem script_passes_stay_below_bookmark_bar
    (browserKind : SupportedBrowser) (process_platform : string)
    (store : list StoreReply) (w : World) (picks : list nat)
    (choices : list Choice) (effects : list Effect) :
  In (choices, effects) (passes_of browserKind process_platform store w picks) ->
  exists files root favicons w' unused,
    getBrowserInstallationFiles toLowerCase home join pathExistsSync
      browserKind process_platform = inr files
    /\ loadFavicons toBase64 store (faviconsDbFile files) true w
       = (Returned favicons, w', unused)
    /\ readJson (bookmarksJsonFile files) = inr root
    /\ (exists l,
          within (folder_children (bookmark_bar (roots root))) l
          /\ Forall (choice_from favicons l) choices)
    /\ Forall (opens_url_of (folder_children (bookmark_bar (roots root)))) effects.
Proof.
  unfold script_passes.
  destruct (getBrowserInstallationFiles _ _ _ _ _ _) as [e|files] eqn:Hfiles;
    [intros []|].
  destruct (loadFavicons _ _ _ _ _) as [[[favicons|e|] w1] unused] eqn:Hload;
    try (intros []).
  destruct (readJson (bookmarksJsonFile files)) as [e|root] eqn:Hroot; [intros []|].
  intros Hin.
  destruct (session_passes_confined favicons _ picks _ _ _ (confined_start _) Hin)
    as [Hshown Hcmd].
  exists files, root, favicons, w1, unused. repeat split; assumption.
Qed.

(** The passes of [script_passes] are those of the loop [script] runs:
    when the script leaves its loop, the commands of all passes together
    are the commands it reports. *)
Lemma script_passes_opened
    (browserKind : SupportedBrowser) (process_platform : string)
    (store : list StoreReply) (w w' : World) (picks : list nat)
    (s' : NavState) (effects : list Effect) :
  run_script browserKind process_platform store w picks
  = Looped (Opened s' effects) w' ->
  concat (map snd (passes_of browserKind process_platform store w picks)) = effects.
Proof.
  unfold script, script_passes.
  destruct (getBrowserInstallationFiles _ _ _ _ _ _) as [e|files]; [discriminate|].
  destruct (loadFavicons _ _ _ _ _) as [[[favicons|e|] w1] unused]; try discriminate.
  destruct (readJson (bookmarksJsonFile files)) as [e|root]; [discriminate|].
  intros [= Hrun _]. eapply session_passes_opened. exact Hrun.
Qed.

(** X17. When the cache holds a map at the start, the script, however it
    ends, has not touched the favicon store: the world at its end is the
    world at its start, with no event and the same cache. *)
Theorem script_warm_cache_no_store_access
    (browserKind : SupportedBrowser) (process_platform : string)
    (store : list StoreReply) (w : World) (picks : list nat)
    (m : gmap string string) :
  cache_favicons (cache w) = Some m ->
  match run_script browserKind process_platform store w picks with
  | Aborted _ w' => w' = w
  | Stalled w' => False
  | Looped _ w' => w' = w
  end.
Proof.
  intros Hc. unfold script.
  destruct (getBrowserInstallationFiles _ _ _ _ _ _) as [e|files]; [reflexivity|].
  rewrite (load_cached toBase64 store _ w m Hc).
  destruct (readJson (bookmarksJsonFile files)); reflexivity.
Qed.

End ScriptFacts.

Lemma script_passes_stay_below_bookmark_bar_witness :
  exists files root favicons w' unused,
    getBrowserInstallationFiles SampleHost.toLowerCase SampleHost.home
      SampleHost.join SampleHost.pathExistsSync Chrome "linux" = inr files
    /\ loadFavicons base64 [] (faviconsDbFile files) true
         (SampleStore.world SampleStore.warm [])
       = (Returned favicons, w', unused)
    /\ SampleHost.readJson (bookmarksJsonFile files) = inr root
    /\ (exists l,
          within (folder_children (bookmark_bar (roots root))) l
          /\ Forall (choice_from favicons l)
               [goBackChoice; createChoice (FavObject SampleStore.old_icons) Sample.B])
    /\ Forall (opens_url_of (folder_children (bookmark_bar (roots root))))
         [Exec ("open " ++ dquote ++ "http://x" ++ dquote)%string].
Proof.
  apply (script_passes_stay_below_bookmark_bar base64 SampleHost.toLowerCase
           SampleHost.home SampleHost.join SampleHost.pathExistsSync
           SampleHost.readJson Chrome "linux" []
           (SampleStore.world SampleStore.warm []) [0; 1]
           [goBackChoice; createChoice (FavObject SampleStore.old_icons) Sample.B]
           [Exec ("open " ++ dquote ++ "http://x" ++ dquote)%string]).
  right. left. reflexivity.
Defined.

Lemma script_warm_cache_no_store_access_witness :
  match script base64 SampleHost.toLowerCase SampleHost.home SampleHost.join
          SampleHost.pathExistsSync SampleHost.readJson Chrome "linux"
          [ReplyError SampleStore.corrupt]
          (SampleStore.world SampleStore.warm []) [1] with
  | Aborted _ w' => w' = SampleStore.world SampleStore.warm []
  | Stalled w' => False
  | Looped _ w' => w' = SampleStore.world SampleStore.warm []
  end.
Proof.
  apply (script_warm_cache_no_store_access base64 SampleHost.toLowerCase
           SampleHost.home SampleHost.join SampleHost.pathExistsSync
           SampleHost.readJson Chrome "linux" [ReplyError SampleStore.corrupt]
           (SampleStore.world SampleStore.warm []) [1] SampleStore.old_icons).
  reflexivity.
Defined.

(** ** Further theorems at the samples *)

Lemma session_never_crashes_witness :
  session Sample.no_favicons Sample.at_root [0; 0; 7]
  <> Crashed (TypeError "Cannot read properties of undefined (reading 'map')").
Proof.
  apply (session_never_crashes Sample.no_favicons [0; 0; 7] Sample.at_root Sample.bar).
  reflexivity.
Defined.

Lemma load_returned_witness :
  exists used evs,
    [ReplyError SampleStore.busy; ReplyRows SampleStore.rows] = used ++ []
    /\ Forall (fun r => forall e, r = ReplyError e -> is_busy e = true) used
    /\ events
         {| cache := {| cache_favicons := Some (b64Data base64 SampleStore.rows);
                        cache_file := Some (b64Data base64 SampleStore.rows) |};
            answers := [];
            events := locked_round SampleStore.file
                      ++ [SetHint "Loading Favicons..."; DbOpen SampleStore.file; DbAll;
                          DbClose; SetHint EmptyString; CacheWrite] |}
       = events (SampleStore.world SampleStore.cold [retry]) ++ evs
    /\ open_connections 0 evs = 0.
Proof.
  apply (load_returned base64
           [ReplyError SampleStore.busy; ReplyRows SampleStore.rows]
           SampleStore.file true (SampleStore.world SampleStore.cold [retry]) _
           (FavObject (b64Data base64 SampleStore.rows)) []).
  reflexivity.
Defined.

Lemma descend_enters_selected_witness :
  loopBody Sample.twins (item (Folder (Sample.base "10" "Work") [Sample.mail]))
  = inr ({| bookmarks := Some [Sample.mail];
            historyStack := push (historyStack Sample.twins)
                              ([] ++ Folder (Sample.base "10" "Work") [Sample.mail]
                                     :: [Sample.work2]) |},
         [], Continue).
Proof.
  apply (descend_enters_selected Sample.twins [] [Sample.work2]
           (Sample.base "10" "Work") [Sample.mail]).
  - reflexivity.
  - constructor.
Defined.

Lemma load_fatal_leaks_witness :
  exists w',
    loadFavicons base64 (ReplyError SampleStore.corrupt :: []) SampleStore.file true
      (SampleStore.world SampleStore.cold [])
    = (Threw (DriverError SampleStore.corrupt), w', [])
    /\ open_connections 0 (events w')
       = S (open_connections 0 (events (SampleStore.world SampleStore.cold []))).
Proof.
  apply (load_fatal_leaks base64 SampleStore.corrupt [] SampleStore.file true
           (SampleStore.world SampleStore.cold [])); reflexivity.
Defined.

